(** * Robust directory deletion of build_third_party_libs.py

    A shallow embedding of [_on_rm_error], [_ensure_not_cwd],
    [safe_remove_tree] and [cleanup_build_files], and the properties of
    the deletion subsystem checked against it.

    The Python code talks to the operating system through [os], [shutil],
    [pathlib], [tempfile], [uuid], [time] and [subprocess].  None of these
    is part of the program: they are gathered in the record [OS], whose
    fields are functions on an abstract world.  The program is written
    once, against an arbitrary [OS]; concrete worlds are given further
    down (a scripted world with injected faults, and a filesystem tree
    with read-only attributes). *)

From Stdlib Require Import List String Ascii Bool ZArith QArith Lia.
Import ListNotations.
Local Open Scope string_scope.
Local Open Scope list_scope.

Set Implicit Arguments.
Set Warnings "-register-all".

(** ** Exceptions and the state-and-exception monad *)

(** A Python exception: its class name and its message.  Every exception
    the program meets derives from [Exception], so [except Exception]
    catches all of them. *)
Inductive exn : Type :=
| PyExc (cls : string) (msg : string).

Inductive outcome (A : Type) : Type :=
| Ok (a : A)
| Raised (e : exn).
Arguments Ok {A} a.
Arguments Raised {A} e.

(** A computation over a state [S] that returns a value or raises. *)
Definition M (S A : Type) : Type := S -> outcome A * S.

Definition ret {S A} (a : A) : M S A := fun s => (Ok a, s).

Definition raise {S A} (e : exn) : M S A := fun s => (Raised e, s).

Definition bind {S A B} (m : M S A) (k : A -> M S B) : M S B :=
  fun s => match m s with
           | (Ok a, s1) => k a s1
           | (Raised e, s1) => (Raised e, s1)
           end.

(** [try: m  except Exception: h] *)
Definition try_except {S A} (m : M S A) (h : exn -> M S A) : M S A :=
  fun s => match m s with
           | (Ok a, s1) => (Ok a, s1)
           | (Raised e, s1) => h e s1
           end.

Declare Scope py_scope.
Delimit Scope py_scope with py.
Notation "x <- m ;; k" := (bind m (fun x => k))
  (at level 61, m at next level, right associativity) : py_scope.
Notation "m ;; k" := (bind m (fun _ => k))
  (at level 61, right associativity) : py_scope.
Local Open Scope py_scope.

(** ** Paths *)

(** A [pathlib.Path] is its sequence of components ([Path.parts]). *)
Definition Path : Type := list string.

(** [p / name] *)
Definition joinpath (p : Path) (name : string) : Path := p ++ [name].

(** [p == q] *)
Fixpoint Path_eqb (p q : Path) : bool :=
  match p, q with
  | [], [] => true
  | a :: p', b :: q' => String.eqb a b && Path_eqb p' q'
  | _, _ => false
  end.

(** ** The operating system *)

(** The function that [shutil.rmtree] reports to its [onerror] handler:
    the primitive that failed on an entry. *)
Inductive EntryOp : Type :=
| op_unlink | op_rmdir | op_scandir | op_lstat | op_open.

(** [stat.S_IWRITE], the owner-write bit (0o200). *)
Definition S_IWRITE : Z := 128.

(** An [onerror] handler, called as [onerror(func, path, exc_info)]; the
    code ignores [exc_info]. *)
Definition Handler (W : Type) : Type := EntryOp -> Path -> M W unit.

(** Everything the program asks of its environment.  Each call may change
    the world and may raise; [path_exists] is [Path.exists()], taken as an
    observation of the world that does not raise. *)
Record OS (W : Type) : Type := {
  os_name : string;                                     (* os.name *)
  os_sep : string;                                      (* os.sep *)
  Path_of : string -> Path;                             (* Path(s) *)
  str_of : Path -> string;                              (* str(p) *)
  path_exists : Path -> W -> bool;                      (* p.exists() *)
  getcwd : M W Path;                                    (* Path.cwd() *)
  resolve : Path -> M W Path;                           (* p.resolve() *)
  chdir : Path -> M W unit;                             (* os.chdir *)
  gettempdir : M W string;                              (* tempfile.gettempdir() *)
  uuid4_hex : M W string;                               (* uuid.uuid4().hex *)
  chmod : Path -> Z -> M W unit;                        (* os.chmod *)
  entry_op : EntryOp -> Path -> M W unit;               (* func(path) *)
  rmtree : Path -> Handler W -> M W unit;               (* shutil.rmtree(p, onerror=h) *)
  rename : Path -> Path -> M W unit;                    (* os.rename *)
  move : string -> string -> M W unit;                  (* shutil.move *)
  sleep : Q -> M W unit;                                (* time.sleep *)
  subprocess_run : list string -> M W Z                 (* exit status *)
}.

(** ** Instrumented state *)

(** The calls the program itself makes to the environment, in order.  The
    calls that [shutil.rmtree] makes to its handler happen inside the
    library and are not listed. *)
Inductive Event : Type :=
| EvExists (p : Path)
| EvGetcwd
| EvResolve (p : Path)
| EvChdir (p : Path)
| EvGettempdir
| EvUuid4
| EvRmtree (p : Path)
| EvRename (src dst : Path)
| EvMove (src dst : string)
| EvSleep (d : Q)
| EvSubprocess (args : list string).

Record St (W : Type) : Type := mkSt {
  world : W;
  trace : list Event
}.

(** Run an environment call on the world and record it. *)
Definition call {W A} (ev : Event) (m : M W A) : M (St W) A :=
  fun s => let (r, w) := m (world s) in (r, mkSt w (trace s ++ [ev])).

Section Program.

Variable W : Type.
Variable os : OS W.

Definition py_exists (p : Path) : M (St W) bool :=
  fun s => (Ok (path_exists os p (world s)), mkSt (world s) (trace s ++ [EvExists p])).

(** *** [_on_rm_error] (lines 15-28) *)

Definition _on_rm_error : Handler W := fun func path =>
  try_except (chmod os path S_IWRITE) (fun _ => ret tt) ;;
  try_except (entry_op os func path) (fun e => raise e).

(** *** [_ensure_not_cwd] (lines 30-38) *)

Definition _ensure_not_cwd (path : Path) : M (St W) unit :=
  c <- call EvGetcwd (getcwd os) ;;
  cwd <- call (EvResolve c) (resolve os c) ;;
  try_except
    (r1 <- call (EvResolve path) (resolve os path) ;;
     inside <- (if Path_eqb cwd r1 then ret true
                else r2 <- call (EvResolve path) (resolve os path) ;;
                     ret (String.prefix (str_of os r2 ++ os_sep os) (str_of os cwd))) ;;
     if (inside : bool)
     then t <- call EvGettempdir (gettempdir os) ;;
          call (EvChdir (Path_of os t)) (chdir os (Path_of os t))
     else ret tt)
    (fun _ => ret tt).

(** *** [safe_remove_tree] (lines 40-108) *)

(** Lines 56-63: the optional removal of [.git] under the original path. *)
Definition remove_git_dir (p : Path) : M (St W) unit :=
  let git_dir := joinpath p ".git" in
  e <- py_exists git_dir ;;
  if (e : bool)
  then try_except (call (EvRmtree git_dir) (rmtree os git_dir _on_rm_error))
                  (fun _ => ret tt)
  else ret tt.

(** Lines 66-68: the trash path. *)
Definition make_trash_path : M (St W) Path :=
  t <- call EvGettempdir (gettempdir os) ;;
  h <- call EvUuid4 (uuid4_hex os) ;;
  ret (joinpath (Path_of os t) ("build-trash-" ++ h)).

(** Lines 70-80: [moved]. *)
Definition relocate (p trash_path : Path) : M (St W) bool :=
  try_except
    (call (EvRename p trash_path) (rename os p trash_path) ;; ret true)
    (fun _ =>
       try_except
         (call (EvMove (str_of os p) (str_of os trash_path))
               (move os (str_of os p) (str_of os trash_path)) ;; ret true)
         (fun _ => ret false)).

(** Lines 86-94: the body of the retry loop.  The result is [true] when
    the body executes [return True]. *)
Definition attempt_body (target : Path) (delay : Q) (attempt : Z) : M (St W) bool :=
  try_except
    (e <- py_exists target ;;
     (if (e : bool)
      then call (EvRmtree target) (rmtree os target _on_rm_error)
      else ret tt) ;;
     e' <- py_exists target ;;
     ret (negb e'))
    (fun _ =>
       call (EvSleep (delay * inject_Z attempt)) (sleep os (delay * inject_Z attempt)) ;;
       ret false).

(** Line 85: [for attempt in range(1, retries + 1)], leaving at the first
    [return True]. *)
Fixpoint retry_loop (target : Path) (delay : Q) (attempts : list Z) : M (St W) bool :=
  match attempts with
  | [] => ret false
  | a :: rest =>
      done <- attempt_body target delay a ;;
      if (done : bool) then ret true else retry_loop target delay rest
  end.

(** [range(1, retries + 1)] *)
Definition py_range1 (retries : Z) : list Z :=
  map Z.of_nat (seq 1 (Z.to_nat retries)).

(** Lines 97-102: the fallback.  [Some b] when the block executes
    [return b], [None] when control falls through to line 104. *)
Definition shell_fallback (target : Path) : M (St W) (option bool) :=
  e <- (if String.eqb (os_name os) "posix" then py_exists target else ret false) ;;
  if (e : bool)
  then try_except
         (let args := ["rm"; "-rf"; str_of os target] in
          status <- call (EvSubprocess args) (subprocess_run os args) ;;
          (if Z.eqb status 0 then ret tt
           else raise (PyExc "CalledProcessError" "rm")) ;;
          e' <- py_exists target ;;
          ret (Some (negb e')))
         (fun _ => ret None)
  else ret None.

(** Lines 104-108. *)
Definition exhausted (path : string) (ignore_errors : bool) : M (St W) bool :=
  if ignore_errors then ret false
  else raise (PyExc "RuntimeError" ("Could not delete build path: " ++ path)).

(** Lines 84-108: everything after [target] is chosen. *)
Definition delete_target (path : string) (target : Path) (retries : Z) (delay : Q)
           (ignore_errors : bool) : M (St W) bool :=
  done <- retry_loop target delay (py_range1 retries) ;;
  if (done : bool) then ret true
  else
    fb <- shell_fallback target ;;
    match fb with
    | Some b => ret b
    | None => exhausted path ignore_errors
    end.

Definition safe_remove_tree (path : string) (retries : Z) (delay : Q)
           (ignore_errors : bool) : M (St W) bool :=
  let p := Path_of os path in
  e <- py_exists p ;;
  if negb e then ret true
  else
    _ensure_not_cwd p ;;
    remove_git_dir p ;;
    trash_path <- make_trash_path ;;
    moved <- relocate p trash_path ;;
    let target := if (moved : bool) then trash_path else p in
    delete_target path target retries delay ignore_errors.

(** The defaults of the signature: [retries=5, delay=0.5,
    ignore_errors=True]. *)
Definition safe_remove_tree_default (path : string) : M (St W) bool :=
  safe_remove_tree path 5 (1 # 2) true.

End Program.

(** ** Build results *)

(** The value found under a key of a Python dict: the key may be absent,
    or hold [None], or hold a value. *)
Inductive Field (A : Type) : Type :=
| Absent
| PyNone
| Val (a : A).
Arguments Absent {A}.
Arguments PyNone {A}.
Arguments Val {A} a.

(** [d.get(key)]: [None] for an absent key. *)
Definition dict_get {A} (f : Field A) : option A :=
  match f with
  | Val a => Some a
  | _ => None
  end.

(** A build result: the dict with the keys ["buildDir"] and ["subLibs"].
    The sub-libraries are kept in insertion order, the order in which
    [items()] yields them; an entry may itself be [None]. *)
Inductive BuildResult : Type :=
| Result (buildDir : Field string)
         (subLibs : Field (list (string * option BuildResult))).

(** Truth value of a string and of a dict. *)
Definition truthy_str (s : string) : bool :=
  match s with
  | EmptyString => false
  | _ => true
  end.

Definition truthy_items {A} (l : list A) : bool :=
  match l with
  | [] => false
  | _ => true
  end.

Section Cleanup.

Variable W : Type.
Variable os : OS W.

(** *** [cleanup_build_files] (lines 110-118), on a result that is not
    [None] *)
Fixpoint cleanup_result (resultData : BuildResult) : M (St W) unit :=
  match resultData with
  | Result bd sl =>
      (match dict_get bd with
       | Some buildDir =>
           if truthy_str buildDir
           then safe_remove_tree_default os buildDir ;; ret tt
           else ret tt
       | None => ret tt
       end) ;;
      match sl with
      | Val subLibs =>
          if truthy_items subLibs
          then (fix items (l : list (string * option BuildResult)) : M (St W) unit :=
                  match l with
                  | [] => ret tt
                  | (name, info) :: l' =>
                      (match info with
                       | Some r => cleanup_result r
                       | None => ret tt
                       end) ;;
                      items l'
                  end) subLibs
          else ret tt
      | Absent | PyNone => ret tt          (* [get] gives [None] *)
      end
  end.

Definition cleanup_build_files (resultData : option BuildResult) : M (St W) unit :=
  match resultData with
  | None => ret tt
  | Some r => cleanup_result r
  end.

End Cleanup.

(** ** Paths and strings

    A plain reading of [Path(s)] and [str(p)] for the concrete worlds
    below, with ["/"] as the separator. *)

(** [p] is [q] or an ancestor of [q]. *)
Fixpoint is_prefix (p q : Path) : bool :=
  match p, q with
  | [], _ => true
  | a :: p', b :: q' => String.eqb a b && is_prefix p' q'
  | _ :: _, [] => false
  end.

(** Components of a string, split at ["/"]; empty components and ["."]
    are dropped, a leading ["/"] is kept as the anchor. *)
Fixpoint components (s cur : string) : list string :=
  let flush := if String.eqb cur "" || String.eqb cur "." then [] else [cur] in
  match s with
  | EmptyString => flush
  | String c s' =>
      if Ascii.eqb c "/" then flush ++ components s' ""
      else components s' (cur ++ String c "")
  end.

Definition parse (s : string) : Path :=
  match s with
  | String "/" s' => "/" :: components s' ""
  | _ => components s ""
  end.

Definition render (p : Path) : string :=
  match p with
  | [] => "."
  | "/" :: rest => "/" ++ String.concat "/" rest
  | _ => String.concat "/" p
  end.

(** Start a computation on a world, with an empty trace. *)
Definition run {W A} (m : M (St W) A) (w : W) : outcome A * St W :=
  m (mkSt w []).

(** The rmtree calls and the sleeps of a trace. *)
Definition rmtree_calls (t : list Event) : list Path :=
  flat_map (fun ev => match ev with EvRmtree p => [p] | _ => [] end) t.

Definition sleeps (t : list Event) : list Q :=
  flat_map (fun ev => match ev with EvSleep d => [d] | _ => [] end) t.

(** ** A scripted world

    A world in which the outcome of every removal is prescribed: used to
    replay the executions the deletion routine is written for (entries
    held by another process, removals that fail for a while, a fallback
    that reports success).  It tracks which paths exist, nothing else. *)
Module Scripted.

(** What one removal call does: whether it raises, and whether the tree
    is gone afterwards. *)
Record Fault : Type := mkFault {
  raises : bool;
  removes : bool
}.

Record SWorld : Type := mkSWorld {
  present : list Path;            (* the paths that exist *)
  cwd : option Path;              (* [None]: the working directory is gone *)
  tmpdir : string;
  tokens : list string;           (* the values uuid4 will give *)
  rename_ok : bool;
  move_ok : bool;
  rmtree_script : list Fault;     (* successive [shutil.rmtree] calls *)
  rm_script : list (Z * bool)     (* successive [rm -rf]: exit status, tree gone *)
}.

Definition mem (p : Path) (l : list Path) : bool := existsb (Path_eqb p) l.

(** Remove [p] and everything below it. *)
Definition prune (p : Path) (l : list Path) : list Path :=
  filter (fun q => negb (is_prefix p q)) l.

(** Move [p] and everything below it to [q]. *)
Definition rebase (p q : Path) (l : list Path) : list Path :=
  map (fun x => if is_prefix p x then q ++ skipn (List.length p) x else x) l.

Definition set_present (w : SWorld) (l : list Path) : SWorld :=
  mkSWorld l (cwd w) (tmpdir w) (tokens w) (rename_ok w) (move_ok w)
           (rmtree_script w) (rm_script w).

Definition os_error (msg : string) : exn := PyExc "OSError" msg.

Definition s_getcwd : M SWorld Path := fun w =>
  match cwd w with
  | Some c => (Ok c, w)
  | None => (Raised (PyExc "FileNotFoundError" "getcwd"), w)
  end.

Definition s_chdir (p : Path) : M SWorld unit := fun w =>
  if mem p (present w)
  then (Ok tt, mkSWorld (present w) (Some p) (tmpdir w) (tokens w) (rename_ok w)
                        (move_ok w) (rmtree_script w) (rm_script w))
  else (Raised (PyExc "FileNotFoundError" "chdir"), w).

Definition s_uuid4 : M SWorld string := fun w =>
  match tokens w with
  | t :: ts => (Ok t, mkSWorld (present w) (cwd w) (tmpdir w) ts (rename_ok w)
                               (move_ok w) (rmtree_script w) (rm_script w))
  | [] => (Ok "0", w)
  end.

Definition s_chmod (p : Path) (mode : Z) : M SWorld unit := fun w =>
  if mem p (present w) then (Ok tt, w) else (Raised (os_error "chmod"), w).

(** The handler's retry of the failed primitive fails again: in this
    world the script alone decides what a removal achieves. *)
Definition s_entry_op (f : EntryOp) (p : Path) : M SWorld unit := fun w =>
  (Raised (os_error "entry"), w).

(** A removal follows the head of the script; with the script used up it
    removes the tree and returns. *)
Definition s_rmtree (p : Path) (h : Handler SWorld) : M SWorld unit := fun w =>
  match rmtree_script w with
  | f :: fs =>
      let l := if removes f then prune p (present w) else present w in
      (if raises f then Raised (os_error "rmtree") else Ok tt,
       mkSWorld l (cwd w) (tmpdir w) (tokens w) (rename_ok w) (move_ok w) fs (rm_script w))
  | [] => (Ok tt, set_present w (prune p (present w)))
  end.

Definition s_rename (p q : Path) : M SWorld unit := fun w =>
  if rename_ok w && mem p (present w) && negb (mem q (present w))
  then (Ok tt, set_present w (rebase p q (present w)))
  else (Raised (os_error "rename"), w).

Definition s_move (src dst : string) : M SWorld unit := fun w =>
  if move_ok w && mem (parse src) (present w) && negb (mem (parse dst) (present w))
  then (Ok tt, set_present w (rebase (parse src) (parse dst) (present w)))
  else (Raised (os_error "move"), w).

Definition s_sleep (d : Q) : M SWorld unit := fun w =>
  if Qle_bool 0 d then (Ok tt, w)
  else (Raised (PyExc "ValueError" "sleep length must be non-negative"), w).

(** [rm -rf target] follows the head of its script; with the script used
    up it removes the tree and exits with status 0. *)
Definition s_subprocess (args : list string) : M SWorld Z := fun w =>
  let target := parse (last args "") in
  match rm_script w with
  | (status, gone) :: rs =>
      (Ok status,
       mkSWorld (if gone then prune target (present w) else present w)
                (cwd w) (tmpdir w) (tokens w) (rename_ok w) (move_ok w)
                (rmtree_script w) rs)
  | [] => (Ok 0%Z, set_present w (prune target (present w)))
  end.

Definition scripted_os (name : string) : OS SWorld := {|
  os_name := name;
  os_sep := "/";
  Path_of := parse;
  str_of := render;
  path_exists := fun p w => mem p (present w);
  getcwd := s_getcwd;
  resolve := fun p w => (Ok p, w);
  chdir := s_chdir;
  gettempdir := fun w => (Ok (tmpdir w), w);
  uuid4_hex := s_uuid4;
  chmod := s_chmod;
  entry_op := s_entry_op;
  rmtree := s_rmtree;
  rename := s_rename;
  move := s_move;
  sleep := s_sleep;
  subprocess_run := s_subprocess
|}.

Definition posix : OS SWorld := scripted_os "posix".
Definition windows : OS SWorld := scripted_os "nt".

Definition stuck : Fault := mkFault true false.      (* raises, tree still there *)
Definition late : Fault := mkFault true true.        (* raises, tree gone all the same *)
Definition clean : Fault := mkFault false true.      (* returns, tree gone *)

(** A build directory, a temporary directory, and the process somewhere
    else. *)
Definition base (script : list Fault) : SWorld := {|
  present := [["/"; "home"]; ["/"; "tmp"]; ["build"]; ["build"; "obj"]];
  cwd := Some ["/"; "home"];
  tmpdir := "/tmp";
  tokens := ["a1"; "b2"];
  rename_ok := true;
  move_ok := true;
  rmtree_script := script;
  rm_script := []
|}.

(** The same, with the working directory deleted under the process. *)
Definition cwd_gone : SWorld := {|
  present := [["/"; "tmp"]; ["build"]; ["build"; "obj"]];
  cwd := None;
  tmpdir := "/tmp";
  tokens := ["a1"; "b2"];
  rename_ok := true;
  move_ok := true;
  rmtree_script := [];
  rm_script := []
|}.

(** A directory named [-v] on a volume that refuses every change:
    renaming, moving and removing fail, and [rm -rf -v] takes its
    operand for an option, removes nothing and exits with status 0. *)
Definition frozen_volume : SWorld := {|
  present := [["/"; "home"]; ["/"; "tmp"]; ["-v"]; ["-v"; "obj"]];
  cwd := Some ["/"; "home"];
  tmpdir := "/tmp";
  tokens := ["a1"; "b2"];
  rename_ok := false;
  move_ok := false;
  rmtree_script := [stuck; stuck; stuck; stuck; stuck];
  rm_script := [(0%Z, false)]
|}.

(** A checkout whose [.git] cannot be removed on its own. *)
Definition checkout (script : list Fault) : SWorld := {|
  present := [["/"; "home"]; ["/"; "tmp"]; ["build"]; ["build"; ".git"]; ["build"; "obj"]];
  cwd := Some ["/"; "home"];
  tmpdir := "/tmp";
  tokens := ["a1"; "b2"];
  rename_ok := true;
  move_ok := true;
  rmtree_script := script;
  rm_script := []
|}.

End Scripted.

(** ** A filesystem tree with read-only attributes

    A single volume, in which a file carrying the read-only attribute
    cannot be unlinked until the attribute is cleared; directories carry
    no attribute.  [shutil.rmtree] is modelled entry by entry, calling its
    [onerror] handler where a primitive fails. *)
Module TreeFS.

Inductive Tree : Type :=
| File (readonly : bool)
| Dir (kids : list (string * Tree)).

Fixpoint find_kid (n : string) (ks : list (string * Tree)) : option Tree :=
  match ks with
  | [] => None
  | (m, c) :: ks' => if String.eqb m n then Some c else find_kid n ks'
  end.

Fixpoint lookup (p : Path) (t : Tree) : option Tree :=
  match p with
  | [] => Some t
  | n :: p' =>
      match t with
      | Dir ks =>
          match find_kid n ks with
          | Some c => lookup p' c
          | None => None
          end
      | File _ => None
      end
  end.

(** Rewrite the entry named [n]: [f] gives its new content, or [None] to
    take it out. *)
Fixpoint alter_kid (n : string) (f : Tree -> option Tree) (ks : list (string * Tree))
  : list (string * Tree) :=
  match ks with
  | [] => []
  | (m, c) :: ks' =>
      if String.eqb m n
      then match f c with
           | Some c' => (m, c') :: ks'
           | None => ks'
           end
      else (m, c) :: alter_kid n f ks'
  end.

(** Rewrite the entry at path [p]. *)
Fixpoint alter_at (p : Path) (f : Tree -> option Tree) (t : Tree) : Tree :=
  match p with
  | [] => t
  | n :: p' =>
      match t with
      | Dir ks =>
          Dir (alter_kid n
                 (match p' with
                  | [] => f
                  | _ :: _ => fun c => Some (alter_at p' f c)
                  end) ks)
      | File _ => t
      end
  end.

Definition remove_at (p : Path) (t : Tree) : Tree := alter_at p (fun _ => None) t.

(** Add a new entry at path [p], in front of the listing of its parent. *)
Fixpoint insert_at (p : Path) (new : Tree) (t : Tree) : Tree :=
  match p with
  | [] => t
  | n :: p' =>
      match t with
      | Dir ks =>
          match p' with
          | [] => Dir ((n, new) :: ks)
          | _ :: _ => Dir (alter_kid n (fun c => Some (insert_at p' new c)) ks)
          end
      | File _ => t
      end
  end.

(** No directory lists a name twice. *)
Fixpoint wf (t : Tree) : Prop :=
  match t with
  | File _ => True
  | Dir ks =>
      NoDup (map fst ks) /\
      (fix all (l : list (string * Tree)) : Prop :=
         match l with
         | [] => True
         | (_, c) :: l' => wf c /\ all l'
         end) ks
  end.

(** A property holds of every entry of a listing. *)
Fixpoint all_kids (P : Tree -> Prop) (l : list (string * Tree)) : Prop :=
  match l with
  | [] => True
  | (_, c) :: l' => P c /\ all_kids P l'
  end.

Record FsWorld : Type := mkFs {
  root : Tree;
  fs_cwd : Path;
  fs_tmp : string;
  fs_tokens : list string
}.

Definition set_root (w : FsWorld) (t : Tree) : FsWorld :=
  mkFs t (fs_cwd w) (fs_tmp w) (fs_tokens w).

Definition is_dir (o : option Tree) : bool :=
  match o with
  | Some (Dir _) => true
  | _ => false
  end.

Definition is_some (o : option Tree) : bool :=
  match o with
  | Some _ => true
  | None => false
  end.

Definition fs_error (cls : string) : exn := PyExc cls "".

Definition fs_chdir (p : Path) : M FsWorld unit := fun w =>
  if is_dir (lookup p (root w))
  then (Ok tt, mkFs (root w) p (fs_tmp w) (fs_tokens w))
  else (Raised (fs_error "FileNotFoundError"), w).

Definition fs_uuid4 : M FsWorld string := fun w =>
  match fs_tokens w with
  | t :: ts => (Ok t, mkFs (root w) (fs_cwd w) (fs_tmp w) ts)
  | [] => (Ok "0", w)
  end.

(** [os.chmod]: a mode with the owner-write bit clears the read-only
    attribute of a file, a mode without it sets the attribute. *)
Definition set_mode (mode : Z) (t : Tree) : Tree :=
  match t with
  | File _ => File (negb (Z.testbit mode 7))
  | Dir ks => Dir ks
  end.

Definition fs_chmod (p : Path) (mode : Z) : M FsWorld unit := fun w =>
  match lookup p (root w) with
  | Some _ => (Ok tt, set_root w (alter_at p (fun c => Some (set_mode mode c)) (root w)))
  | None => (Raised (fs_error "FileNotFoundError"), w)
  end.

Definition fs_unlink (p : Path) : M FsWorld unit := fun w =>
  match lookup p (root w) with
  | Some (File true) => (Raised (fs_error "PermissionError"), w)
  | Some (File false) => (Ok tt, set_root w (remove_at p (root w)))
  | Some (Dir _) => (Raised (fs_error "IsADirectoryError"), w)
  | None => (Raised (fs_error "FileNotFoundError"), w)
  end.

Definition fs_rmdir (p : Path) : M FsWorld unit := fun w =>
  match lookup p (root w) with
  | Some (Dir []) => (Ok tt, set_root w (remove_at p (root w)))
  | Some (Dir (_ :: _)) => (Raised (PyExc "OSError" "Directory not empty"), w)
  | Some (File _) => (Raised (fs_error "NotADirectoryError"), w)
  | None => (Raised (fs_error "FileNotFoundError"), w)
  end.

Definition fs_entry_op (f : EntryOp) (p : Path) : M FsWorld unit := fun w =>
  match f with
  | op_unlink => fs_unlink p w
  | op_rmdir => fs_rmdir p w
  | op_scandir | op_open =>
      match lookup p (root w) with
      | Some (Dir _) => (Ok tt, w)
      | Some (File _) => (Raised (fs_error "NotADirectoryError"), w)
      | None => (Raised (fs_error "FileNotFoundError"), w)
      end
  | op_lstat =>
      if is_some (lookup p (root w)) then (Ok tt, w)
      else (Raised (fs_error "FileNotFoundError"), w)
  end.

(** [try: func(path)  except OSError: onerror(func, path, exc_info)] *)
Definition with_onerror (h : Handler FsWorld) (f : EntryOp) (p : Path)
  : M FsWorld unit := fun w =>
  match fs_entry_op f p w with
  | (Ok _, w1) => (Ok tt, w1)
  | (Raised _, w1) => h f p w1
  end.

(** The removal of the entry at [p], whose listing was read as [t]:
    files are unlinked, directories emptied entry by entry and then
    removed; an exception from the handler ends the removal. *)
Fixpoint rmtree_walk (h : Handler FsWorld) (p : Path) (t : Tree) : M FsWorld unit :=
  match t with
  | File _ => with_onerror h op_unlink p
  | Dir ks =>
      bind ((fix entries (l : list (string * Tree)) : M FsWorld unit :=
               match l with
               | [] => ret tt
               | (n, c) :: l' =>
                   bind (rmtree_walk h (joinpath p n) c) (fun _ => entries l')
               end) ks)
           (fun _ => with_onerror h op_rmdir p)
  end.

(** [shutil.rmtree(p, onerror=h)]: on anything but a directory the scan
    fails, the handler is told, and the final [rmdir] is tried all the
    same. *)
Definition fs_rmtree (p : Path) (h : Handler FsWorld) : M FsWorld unit := fun w =>
  match lookup p (root w) with
  | Some (Dir ks) => rmtree_walk h p (Dir ks) w
  | _ => bind (h op_scandir p) (fun _ => with_onerror h op_rmdir p) w
  end.

(** The destination of a rename must be free, and its parent a
    directory, in the tree the source has been taken out of. *)
Definition can_place (q : Path) (t : Tree) : bool :=
  match q with
  | [] => false
  | _ :: _ => negb (is_some (lookup q t)) && is_dir (lookup (removelast q) t)
  end.

Definition fs_rename (p q : Path) : M FsWorld unit := fun w =>
  match p, lookup p (root w) with
  | _ :: _, Some t =>
      if negb (is_prefix p q) && can_place q (remove_at p (root w))
      then (Ok tt, set_root w (insert_at q t (remove_at p (root w))))
      else (Raised (fs_error "OSError"), w)
  | _, _ => (Raised (fs_error "FileNotFoundError"), w)
  end.

(** The tree is one volume: the move is reached only after [os.rename]
    refused the same pair, and is refused likewise. *)
Definition fs_move (src dst : string) : M FsWorld unit := fun w =>
  (Raised (PyExc "shutil.Error" "move"), w).

(** [rm -rf] removes the tree whatever its attributes and exits with
    status 0. *)
Definition fs_subprocess (args : list string) : M FsWorld Z := fun w =>
  (Ok 0%Z, set_root w (remove_at (parse (last args "")) (root w))).

Definition tree_os (name : string) : OS FsWorld := {|
  os_name := name;
  os_sep := "/";
  Path_of := parse;
  str_of := render;
  path_exists := fun p w => is_some (lookup p (root w));
  getcwd := fun w => (Ok (fs_cwd w), w);
  resolve := fun p w => (Ok p, w);
  chdir := fs_chdir;
  gettempdir := fun w => (Ok (fs_tmp w), w);
  uuid4_hex := fs_uuid4;
  chmod := fs_chmod;
  entry_op := fs_entry_op;
  rmtree := fs_rmtree;
  rename := fs_rename;
  move := fs_move;
  sleep := fun d w => (Ok tt, w);
  subprocess_run := fs_subprocess
|}.

(** A build directory with read-only files, two of them in
    sub-directories, next to a temporary directory. *)
Definition sample_root : Tree :=
  Dir [("tmp", Dir []);
       ("build", Dir [("a.o", File true);
                      ("obj", Dir [("b.o", File true); ("c.o", File false)]);
                      (".git", Dir [("pack", File true)])])].

Definition sample : FsWorld := mkFs sample_root ["tmp"] "tmp" ["a1"].

End TreeFS.

(** ** Phases of [safe_remove_tree] *)

Section Phases.

Variable W : Type.
Variable os : OS W.

(** Lines 53-82 as one computation: the steps between the existence check
    and the deletion, yielding [target]. *)
Definition choose_target (p : Path) : M (St W) Path :=
  _ensure_not_cwd os p ;;
  remove_git_dir os p ;;
  trash_path <- make_trash_path os ;;
  moved <- relocate os p trash_path ;;
  ret (if (moved : bool) then trash_path else p).

End Phases.

(** ** Traces *)

(** [emits P m]: whatever [m] does, it only appends events, and every
    event it appends satisfies [P]. *)
Definition emits {W A} (P : Event -> Prop) (m : M (St W) A) : Prop :=
  forall s r s', m s = (r, s') ->
    exists evs, trace s' = trace s ++ evs /\ Forall P evs.

(** An event is a removal of nothing but [target]. *)
Definition removes_only (target : Path) (ev : Event) : Prop :=
  match ev with
  | EvRmtree q => q = target
  | _ => True
  end.

Definition is_sleep (ev : Event) : bool :=
  match ev with
  | EvSleep _ => true
  | _ => false
  end.

(** ** Two statements the code does not satisfy as worded *)

(** Idempotence as worded: on a nonexistent path the call returns [True]
    and changes nothing, and a second call in a row returns what the
    first returned and leaves the filesystem where the first left it. *)
Definition twice_is_once : Prop :=
  forall W (os : OS W) (path : string) (w : W),
    (path_exists os (Path_of os path) w = false ->
     fst (run (safe_remove_tree_default os path) w) = Ok true /\
     world (snd (run (safe_remove_tree_default os path) w)) = w) /\
    (forall r1 s1 r2 s2,
        run (safe_remove_tree_default os path) w = (r1, s1) ->
        run (safe_remove_tree_default os path) (world s1) = (r2, s2) ->
        r2 = r1 /\ world s2 = world s1).

(** The deletion phase as worded: when [.git] exists directly under the
    target it is handed, the phase issues a removal of that [.git]. *)
Definition deletion_phase_precleans_vcs : Prop :=
  forall W (os : OS W) (path : string) (target : Path) retries delay ign (w : W),
    path_exists os (joinpath target ".git") w = true ->
    In (joinpath target ".git")
       (rmtree_calls (trace (snd (run (delete_target os path target retries delay ign) w)))).

(** ** Reading a build-result tree *)

(** The truthy [buildDir] values of a tree, in the order the traversal
    meets them: the node first, then its sub-libraries in insertion
    order. *)
Fixpoint build_dirs (r : BuildResult) : list string :=
  match r with
  | Result bd sl =>
      (match dict_get bd with
       | Some d => if truthy_str d then [d] else []
       | None => []
       end) ++
      match sl with
      | Val subLibs =>
          (fix dirs (l : list (string * option BuildResult)) : list string :=
             match l with
             | [] => []
             | (_, info) :: l' =>
                 (match info with
                  | Some r' => build_dirs r'
                  | None => []
                  end) ++ dirs l'
             end) subLibs
      | Absent | PyNone => []
      end
  end.

(** [r'] is an entry of the [subLibs] of [r]. *)
Definition sub_result (r r' : BuildResult) : Prop :=
  match r with
  | Result _ (Val subLibs) => exists name, In (name, Some r') subLibs
  | Result _ _ => False
  end.

(** [r'] occurs in [r], at any depth. *)
Inductive occurs_in (r : BuildResult) : BuildResult -> Prop :=
| occurs_here : occurs_in r r
| occurs_below r1 r2 : occurs_in r r1 -> sub_result r1 r2 -> occurs_in r r2.

(** The tree of the example. *)
Definition example_tree : BuildResult :=
  Result (Val "A")
         (Val [("x", Some (Result (Val "B") (Val [])));
               ("y", Some (Result PyNone (Val [])))]).

(** A falsy [buildDir]: no key, [None], or the empty string. *)
Definition falsy_dir (bd : Field string) : bool :=
  match dict_get bd with
  | Some d => negb (truthy_str d)
  | None => true
  end.

(** A falsy [subLibs]: no key, [None], or the empty mapping. *)
Definition falsy_libs {A} (sl : Field (list A)) : bool :=
  match dict_get sl with
  | Some l => negb (truthy_items l)
  | None => true
  end.

Section CleanupParts.

Variable W : Type.
Variable os : OS W.

(** One default deletion after the other; a deletion that raises ends
    the sequence. *)
Fixpoint remove_each (dirs : list string) : M (St W) unit :=
  match dirs with
  | [] => ret tt
  | d :: rest => safe_remove_tree_default os d ;; remove_each rest
  end.

(** Lines 112-114 alone. *)
Definition delete_build_dir (bd : Field string) : M (St W) unit :=
  match dict_get bd with
  | Some buildDir =>
      if truthy_str buildDir
      then safe_remove_tree_default os buildDir ;; ret tt
      else ret tt
  | None => ret tt
  end.

(** Lines 117-118 alone. *)
Fixpoint cleanup_items (l : list (string * option BuildResult)) : M (St W) unit :=
  match l with
  | [] => ret tt
  | (name, info) :: l' => cleanup_build_files os info ;; cleanup_items l'
  end.

(** Lines 115-118 alone. *)
Definition cleanup_sub_libs (sl : Field (list (string * option BuildResult)))
  : M (St W) unit :=
  match dict_get sl with
  | Some subLibs => if truthy_items subLibs then cleanup_items subLibs else ret tt
  | None => ret tt
  end.

End CleanupParts.

(** A property holds of every build result among the entries. *)
Fixpoint all_entries (P : BuildResult -> Prop) (l : list (string * option BuildResult))
  : Prop :=
  match l with
  | [] => True
  | (_, Some r) :: l' => P r /\ all_entries P l'
  | (_, None) :: l' => all_entries P l'
  end.

Definition all_sub_libs (P : BuildResult -> Prop)
           (sl : Field (list (string * option BuildResult))) : Prop :=
  match sl with
  | Val l => all_entries P l
  | Absent | PyNone => True
  end.

(** ** The callers: [build_library] and [main] (lines 120-175)

    [config] and [scripts.shared] are not part of the file: the
    configuration values and the helpers the two functions use are taken
    as parameters.  The build steps and the [is_dir] test are not entered
    in the trace, which follows the calls of the deletion routine and the
    [os.chdir] of [main]. *)

(** A positional argument passed on to a build. *)
Inductive PyArg : Type :=
| ArgBool (b : bool)
| ArgStr (s : string).

(** The values read from [config]. *)
Record Config : Type := {
  clean_deps_build_files : bool;
  prebuilt_bin_dir : string;
  with_swiftshader : bool;
  build_swiftshader : PyArg;
  with_lua_debugger : bool
}.

(** [sys.platform], [Path.is_dir()] and the helpers of [scripts.shared]. *)
Record BuildEnv (W : Type) : Type := {
  sys_platform : string;
  path_is_dir : Path -> W -> bool;
  get_library_root_dir : string -> string;
  build_third_party_library : string -> list PyArg -> M W (option BuildResult);
  mkpath : string -> M W unit
}.

(** Run a call on the world, leaving the trace as it is. *)
Definition lift {W A} (m : M W A) : M (St W) A :=
  fun s => let (r, w) := m (world s) in (r, mkSt w (trace s)).

Section Callers.

Variable W : Type.
Variable os : OS W.
Variable cfg : Config.
Variable env : BuildEnv W.

(** *** [build_library] (lines 120-128) *)
Definition build_library (name : string) (args : list PyArg) : M (St W) unit :=
  fun s =>
    if negb (clean_deps_build_files cfg)
       || negb (path_is_dir env (Path_of os (get_library_root_dir env name)) (world s))
    then (res <- lift (build_third_party_library env name args) ;;
          if clean_deps_build_files cfg
          then cleanup_build_files os res
          else ret tt) s
    else ret tt s.

(** *** [main] (lines 130-175) *)
Definition main : M (St W) unit :=
  lift (mkpath env (prebuilt_bin_dir cfg)) ;;
  call (EvChdir (Path_of os (prebuilt_bin_dir cfg)))
       (chdir os (Path_of os (prebuilt_bin_dir cfg))) ;;
  build_library "libdecor" [] ;;
  build_library "zlib" [] ;;
  build_library "libzip" [] ;;
  build_library "libpng" [] ;;
  build_library "icu" [] ;;
  build_library "boost" [] ;;
  build_library "luajit" [] ;;
  build_library "geometrictools" [] ;;
  build_library "opencv" [] ;;
  build_library "spirv_tools" [] ;;
  build_library "spirv_headers" [] ;;
  (if with_swiftshader cfg
   then build_library "swiftshader" [build_swiftshader cfg]
   else ret tt) ;;
  build_library "vcpkg" [] ;;
  (if String.eqb (sys_platform env) "win32"
   then build_library "sevenzip" []
   else ret tt) ;;
  build_library "bit7z" [] ;;
  build_library "sevenzlib" [] ;;
  build_library "cpptrace" [] ;;
  build_library "ispctc" [] ;;
  (if String.eqb (sys_platform env) "linux"
   then build_library "sdbus_cpp" []
   else build_library "wintoast" []) ;;
  (if String.eqb (sys_platform env) "win32"
   then build_library "freetype" []
   else ret tt) ;;
  (if with_lua_debugger cfg
   then build_library "modebug" [] ;;
        build_library "luasocket" [] ;;
        build_library "lua_debug" []
   else ret tt).

(** The libraries [main] asks for, in order, with their extra
    arguments. *)
Definition build_plan : list (string * list PyArg) :=
  [("libdecor", []); ("zlib", []); ("libzip", []); ("libpng", []); ("icu", []);
   ("boost", []); ("luajit", []); ("geometrictools", []); ("opencv", []);
   ("spirv_tools", []); ("spirv_headers", [])]
  ++ (if with_swiftshader cfg then [("swiftshader", [build_swiftshader cfg])] else [])
  ++ [("vcpkg", [])]
  ++ (if String.eqb (sys_platform env) "win32" then [("sevenzip", [])] else [])
  ++ [("bit7z", []); ("sevenzlib", []); ("cpptrace", []); ("ispctc", [])]
  ++ [(if String.eqb (sys_platform env) "linux" then "sdbus_cpp" else "wintoast", [])]
  ++ (if String.eqb (sys_platform env) "win32" then [("freetype", [])] else [])
  ++ (if with_lua_debugger cfg
      then [("modebug", []); ("luasocket", []); ("lua_debug", [])]
      else []).

(** One [build_library] call after the other; a call that raises ends
    the sequence. *)
Fixpoint build_each (l : list (string * list PyArg)) : M (St W) unit :=
  match l with
  | [] => ret tt
  | (name, args) :: l' => build_library name args ;; build_each l'
  end.

End Callers.

(** ** Vocabulary for the further properties *)

(** [l1] is [l2] with some elements left out. *)
Inductive subseq {A : Type} : list A -> list A -> Prop :=
| subseq_nil : subseq [] []
| subseq_skip x l1 l2 : subseq l1 l2 -> subseq l1 (x :: l2)
| subseq_keep x l1 l2 : subseq l1 l2 -> subseq (x :: l1) (x :: l2).

(** The sleeps of the attempts [attempts] when each of them fails:
    [delay * attempt]. *)
Definition backoff (delay : Q) (attempts : list Z) : list Q :=
  map (fun a => delay * inject_Z a) attempts.

Definition is_subprocess (ev : Event) : bool :=
  match ev with
  | EvSubprocess _ => true
  | _ => false
  end.

Definition is_chdir (ev : Event) : bool :=
  match ev with
  | EvChdir _ => true
  | _ => false
  end.

(** A call of the environment that returns, whatever the world. *)
Definition returns {W A} (m : M W A) : Prop :=
  forall w, exists a w', m w = (Ok a, w').

(** An environment in which the calls made outside every [try] return:
    the working directory can be read and resolved, the temporary
    directory and a fresh identifier obtained, and a sleep is never
    refused. *)
Definition quiet {W} (os : OS W) : Prop :=
  returns (getcwd os) /\
  (forall p, returns (resolve os p)) /\
  returns (gettempdir os) /\
  returns (uuid4_hex os) /\
  (forall d, returns (sleep os d)).

(** A computation raises nothing but exceptions satisfying [Q]. *)
Definition raises_only {S A} (Q : exn -> Prop) (m : M S A) : Prop :=
  forall s e s', m s = (Raised e, s') -> Q e.

(** The error of line 108. *)
Definition could_not_delete (path : string) : exn :=
  PyExc "RuntimeError" ("Could not delete build path: " ++ path).

(** A build environment over the scripted world: every library builds
    into the directory [build] and reports it; a library counts as built
    when its root directory [deps/<name>] exists. *)
Definition toy_env (platform : string) : BuildEnv Scripted.SWorld := {|
  sys_platform := platform;
  path_is_dir := fun p w => Scripted.mem p (Scripted.present w);
  get_library_root_dir := fun name => ("deps/" ++ name)%string;
  build_third_party_library := fun name args w =>
    (Ok (Some (Result (Val "build") Absent)), w);
  mkpath := fun p w => (Ok tt, w)
|}.

Definition toy_config (clean : bool) : Config := {|
  clean_deps_build_files := clean;
  prebuilt_bin_dir := "/tmp";
  with_swiftshader := false;
  build_swiftshader := ArgBool false;
  with_lua_debugger := true
|}.

(** * Properties *)

(** ** Unfolding the control flow *)

Ltac unfold_py :=
  unfold bind, try_except, ret, raise, call, py_exists in *; cbn [world trace] in *.

Section Flow.

Variable W : Type.
Variable os : OS W.

Lemma safe_remove_tree_missing path retries delay ign s :
  path_exists os (Path_of os path) (world s) = false ->
  safe_remove_tree os path retries delay ign s
  = (Ok true, mkSt (world s) (trace s ++ [EvExists (Path_of os path)])).
Proof.
  intros H. unfold safe_remove_tree. unfold_py. rewrite H. reflexivity.
Qed.

Lemma safe_remove_tree_phases path retries delay ign s :
  path_exists os (Path_of os path) (world s) = true ->
  safe_remove_tree os path retries delay ign s
  = (target <- choose_target os (Path_of os path) ;;
     delete_target os path target retries delay ign)
      (mkSt (world s) (trace s ++ [EvExists (Path_of os path)])).
Proof.
  intros H. unfold safe_remove_tree, choose_target.
  unfold bind at 1. unfold py_exists at 1. rewrite H. cbn [negb].
  set (s0 := mkSt (world s) _).
  unfold bind.
  destruct (_ensure_not_cwd os (Path_of os path) s0) as [[[]|e] s1]; [|reflexivity].
  destruct (remove_git_dir os (Path_of os path) s1) as [[[]|e] s2]; [|reflexivity].
  destruct (make_trash_path os s2) as [[t|e] s3]; [|reflexivity].
  destruct (relocate os (Path_of os path) t s3) as [[m|e] s4]; reflexivity.
Qed.

(** What [relocate] does, case by case on the two primitives. *)
Lemma relocate_cases p trash s :
  relocate os p trash s =
  match rename os p trash (world s) with
  | (Ok _, w1) => (Ok true, mkSt w1 (trace s ++ [EvRename p trash]))
  | (Raised _, w1) =>
      match move os (str_of os p) (str_of os trash) w1 with
      | (Ok _, w2) =>
          (Ok true, mkSt w2 ((trace s ++ [EvRename p trash])
                               ++ [EvMove (str_of os p) (str_of os trash)]))
      | (Raised _, w2) =>
          (Ok false, mkSt w2 ((trace s ++ [EvRename p trash])
                                ++ [EvMove (str_of os p) (str_of os trash)]))
      end
  end.
Proof.
  unfold relocate. unfold_py.
  destruct (rename os p trash (world s)) as [[[]|e] w1]; cbn; [reflexivity|].
  destruct (move os (str_of os p) (str_of os trash) w1) as [[[]|e'] w2]; reflexivity.
Qed.

Lemma relocate_total p trash s :
  exists moved s', relocate os p trash s = (Ok moved, s').
Proof.
  rewrite relocate_cases.
  destruct (rename os p trash (world s)) as [[[]|e] w1]; [eauto|].
  destruct (move os (str_of os p) (str_of os trash) w1) as [[[]|e'] w2]; eauto.
Qed.

End Flow.

(** ** What a computation adds to the trace *)

Section Emits.

Variable W : Type.
Variable os : OS W.
Variable P : Event -> Prop.

Lemma emits_ret A (a : A) : emits P (ret (S := St W) a).
Proof.
  intros s r s' H. inversion H; subst. exists []. rewrite app_nil_r. auto.
Qed.

Lemma emits_raise A e : emits P (raise (S := St W) (A := A) e).
Proof.
  intros s r s' H. inversion H; subst. exists []. rewrite app_nil_r. auto.
Qed.

Lemma emits_bind A B (m : M (St W) A) (k : A -> M (St W) B) :
  emits P m -> (forall a, emits P (k a)) -> emits P (bind m k).
Proof.
  intros Hm Hk s r s' H. unfold bind in H.
  destruct (m s) as [[a|e] s1] eqn:E.
  - destruct (Hm _ _ _ E) as (l1 & T1 & F1).
    destruct (Hk a _ _ _ H) as (l2 & T2 & F2).
    exists (l1 ++ l2). split.
    + rewrite T2, T1, app_assoc. reflexivity.
    + apply Forall_app; auto.
  - inversion H; subst. eapply Hm; eauto.
Qed.

Lemma emits_try A (m : M (St W) A) (h : exn -> M (St W) A) :
  emits P m -> (forall e, emits P (h e)) -> emits P (try_except m h).
Proof.
  intros Hm Hh s r s' H. unfold try_except in H.
  destruct (m s) as [[a|e] s1] eqn:E.
  - inversion H; subst. eapply Hm; eauto.
  - destruct (Hm _ _ _ E) as (l1 & T1 & F1).
    destruct (Hh e _ _ _ H) as (l2 & T2 & F2).
    exists (l1 ++ l2). split.
    + rewrite T2, T1, app_assoc. reflexivity.
    + apply Forall_app; auto.
Qed.

Lemma emits_call A ev (m : M W A) : P ev -> emits P (call ev m).
Proof.
  intros Hev s r s' H. unfold call in H.
  destruct (m (world s)) as [r0 w]. inversion H; subst.
  exists [ev]. cbn. auto.
Qed.

Lemma emits_exists p : P (EvExists p) -> emits P (py_exists os p).
Proof.
  intros Hev s r s' H. unfold py_exists in H. inversion H; subst.
  exists [EvExists p]. cbn. auto.
Qed.

Lemma emits_if A (b : bool) (m1 m2 : M (St W) A) :
  emits P m1 -> emits P m2 -> emits P (if b then m1 else m2).
Proof. destruct b; auto. Qed.

End Emits.

Ltac emits_step :=
  first [ apply emits_bind; [|intros ?]
        | apply emits_try; [|intros ?]
        | apply emits_if
        | apply emits_ret
        | apply emits_raise
        | apply emits_call
        | apply emits_exists ].

(** ** The retry loop *)

Section Loop.

Variable W : Type.
Variable os : OS W.

Lemma attempt_body_emits target delay a :
  emits (removes_only target) (attempt_body os target delay a).
Proof.
  unfold attempt_body. repeat emits_step; cbn; auto.
Qed.

Lemma retry_loop_emits target delay attempts :
  emits (removes_only target) (retry_loop os target delay attempts).
Proof.
  induction attempts as [|a rest IH]; cbn [retry_loop].
  - apply emits_ret.
  - apply emits_bind; [apply attempt_body_emits|].
    intros []; [apply emits_ret | exact IH].
Qed.

Lemma shell_fallback_emits target :
  emits (removes_only target) (shell_fallback os target).
Proof.
  unfold shell_fallback. repeat emits_step; cbn; auto.
Qed.

Lemma delete_target_emits path target retries delay ign :
  emits (removes_only target) (delete_target os path target retries delay ign).
Proof.
  unfold delete_target.
  apply emits_bind; [apply retry_loop_emits|].
  intros []; [apply emits_ret|].
  apply emits_bind; [apply shell_fallback_emits|].
  intros [b|]; [apply emits_ret|].
  unfold exhausted. destruct ign; [apply emits_ret | apply emits_raise].
Qed.

(** One pass through the loop body, by what the environment does. *)
Lemma attempt_body_gone target delay a s :
  path_exists os target (world s) = false ->
  attempt_body os target delay a s
  = (Ok true, mkSt (world s) ((trace s ++ [EvExists target]) ++ [EvExists target])).
Proof.
  intros H. unfold attempt_body. unfold_py. rewrite H. cbn. rewrite H. reflexivity.
Qed.

Lemma attempt_body_returns target delay a s w1 :
  path_exists os target (world s) = true ->
  rmtree os target (_on_rm_error os) (world s) = (Ok tt, w1) ->
  attempt_body os target delay a s
  = (Ok (negb (path_exists os target w1)),
     mkSt w1 (((trace s ++ [EvExists target]) ++ [EvRmtree target]) ++ [EvExists target])).
Proof.
  intros H R. unfold attempt_body. unfold_py. rewrite H. cbn. rewrite R. reflexivity.
Qed.

Lemma attempt_body_raises target delay a s e w1 w2 :
  path_exists os target (world s) = true ->
  rmtree os target (_on_rm_error os) (world s) = (Raised e, w1) ->
  sleep os (delay * inject_Z a) w1 = (Ok tt, w2) ->
  attempt_body os target delay a s
  = (Ok false,
     mkSt w2 (((trace s ++ [EvExists target]) ++ [EvRmtree target])
                ++ [EvSleep (delay * inject_Z a)])).
Proof.
  intros H R Sl. unfold attempt_body. unfold_py. rewrite H. cbn. rewrite R. cbn.
  rewrite Sl. reflexivity.
Qed.

End Loop.

(** ** The guard (C3) *)

Section Guard.

Variable W : Type.
Variable os : OS W.

(** Once the working directory has been determined and resolved, nothing
    the guard does can raise. *)
Lemma guard_swallows_after_cwd path s c w1 cwd w2 :
  getcwd os (world s) = (Ok c, w1) ->
  resolve os c w1 = (Ok cwd, w2) ->
  exists s', _ensure_not_cwd os path s = (Ok tt, s').
Proof.
  intros G R. unfold _ensure_not_cwd. unfold_py. rewrite G. cbn. rewrite R. cbn.
  destruct (resolve os path w2) as [[r1|e] w3]; cbn; [|eauto].
  destruct (Path_eqb cwd r1); cbn.
  - destruct (gettempdir os w3) as [[t|e] w4]; cbn; [|eauto].
    destruct (chdir os (Path_of os t) w4) as [[[]|e] w5]; cbn; eauto.
  - destruct (resolve os path w3) as [[r2|e] w4]; cbn; [|eauto].
    destruct (String.prefix _ _); cbn; [|eauto].
    destruct (gettempdir os w4) as [[t|e] w5]; cbn; [|eauto].
    destruct (chdir os (Path_of os t) w5) as [[[]|e] w6]; cbn; eauto.
Qed.

(** A failure to determine the working directory is raised before the
    [try] and leaves [safe_remove_tree] with nothing attempted. *)
Lemma guard_cwd_failure_propagates path retries delay ign w e w1 :
  path_exists os (Path_of os path) w = true ->
  getcwd os w = (Raised e, w1) ->
  run (safe_remove_tree os path retries delay ign) w
  = (Raised e, mkSt w1 [EvExists (Path_of os path); EvGetcwd]).
Proof.
  intros E G. unfold run. rewrite safe_remove_tree_phases by exact E.
  unfold choose_target, _ensure_not_cwd. unfold_py. rewrite G. reflexivity.
Qed.

End Guard.

Import Scripted.

(** C1 (the code departs from the claim).  The build directory is moved
    to the trash; its first four removals raise and leave it in place, the
    fifth and last raises as well but the tree is gone afterwards.  The
    claim asks for [True].  The loop tests for success only inside the
    [try], the fallback is skipped because the target no longer exists,
    and the give-up branch answers without looking: the call returns
    [False], or raises when [ignore_errors] is false, on either platform,
    although neither the target nor the original path exists any more.
    Had the same failure come with an attempt to spare, the next pass
    would have found the target gone and returned [True]. *)
Theorem C1_last_attempt_raised_target_gone :
  let w := base [stuck; stuck; stuck; stuck; late] in
  let trash := ["/"; "tmp"; "build-trash-a1"] in
  fst (run (safe_remove_tree windows "build" 5 (1 # 2) true) w) = Ok false /\
  fst (run (safe_remove_tree posix "build" 5 (1 # 2) true) w) = Ok false /\
  fst (run (safe_remove_tree posix "build" 5 (1 # 2) false) w)
    = Raised (PyExc "RuntimeError" "Could not delete build path: build") /\
  rmtree_calls (trace (snd (run (safe_remove_tree posix "build" 5 (1 # 2) true) w)))
    = [trash; trash; trash; trash; trash] /\
  path_exists posix trash
    (world (snd (run (safe_remove_tree posix "build" 5 (1 # 2) true) w))) = false /\
  path_exists posix ["build"]
    (world (snd (run (safe_remove_tree posix "build" 5 (1 # 2) true) w))) = false /\
  fst (run (safe_remove_tree posix "build" 5 (1 # 2) true) (base [stuck; stuck; late]))
    = Ok true.
Proof. vm_compute. repeat split; reflexivity. Qed.

(** C2 (the code departs from the claim).  A directory that can be
    neither moved nor removed, on POSIX; every attempt raises, then
    [rm -rf] exits with status 0 and the directory is still there.  The
    claim asks for an error naming the path when [ignore_errors] is
    false.  Line 100 returns [not target.exists()] from inside the
    fallback, so the call returns [False] and the [raise] of line 108 is
    never reached; with [ignore_errors] true the result is [False], as
    claimed.  Without the fallback (another platform) the same directory
    does make the call raise, with the path in the message. *)
Theorem C2_fallback_status_zero_target_remains :
  fst (run (safe_remove_tree posix "-v" 5 (1 # 2) false) frozen_volume) = Ok false /\
  fst (run (safe_remove_tree posix "-v" 5 (1 # 2) true) frozen_volume) = Ok false /\
  path_exists posix ["-v"]
    (world (snd (run (safe_remove_tree posix "-v" 5 (1 # 2) false) frozen_volume))) = true /\
  rmtree_calls (trace (snd (run (safe_remove_tree posix "-v" 5 (1 # 2) false) frozen_volume)))
    = [["-v"]; ["-v"]; ["-v"]; ["-v"]; ["-v"]] /\
  In (EvSubprocess ["rm"; "-rf"; "-v"])
     (trace (snd (run (safe_remove_tree posix "-v" 5 (1 # 2) false) frozen_volume))) /\
  fst (run (safe_remove_tree windows "-v" 5 (1 # 2) false) frozen_volume)
    = Raised (PyExc "RuntimeError" "Could not delete build path: -v").
Proof. vm_compute. repeat split; try reflexivity. tauto. Qed.

(** C3 (the code departs from the claim).  The working directory of the
    process has been deleted, so [Path.cwd()] raises.  The claim asks for
    the failure to be swallowed and the deletion to go on.  Line 31 sits
    before the [try] of line 32: the exception leaves [_ensure_not_cwd]
    and [safe_remove_tree], after the existence check and the attempt to
    read the working directory, and the build directory is left as it
    was. *)
Theorem C3_cwd_failure_aborts_deletion :
  run (safe_remove_tree_default windows "build") cwd_gone
  = (Raised (PyExc "FileNotFoundError" "getcwd"),
     mkSt cwd_gone [EvExists ["build"]; EvGetcwd]) /\
  fst (_ensure_not_cwd windows ["build"] (mkSt cwd_gone []))
  = Raised (PyExc "FileNotFoundError" "getcwd") /\
  path_exists windows ["build"] cwd_gone = true.
Proof. vm_compute. repeat split; reflexivity. Qed.

(** ** Idempotence (C4) *)

(** C4 (counterexample).  The directory is moved to the trash, every
    removal there raises, and on a platform without the fallback the call
    gives up.  It returns
    [False]; the original path is gone, so the second call returns
    [True]. *)
Lemma C4_second_call_differs : ~ twice_is_once.
Proof.
  intros H.
  destruct (H SWorld windows "build" (base [stuck; stuck; stuck; stuck; stuck]))
    as [_ H2].
  set (first := run (safe_remove_tree_default windows "build")
                    (base [stuck; stuck; stuck; stuck; stuck])) in H2.
  specialize (H2 (fst first) (snd first)
                 (fst (run (safe_remove_tree_default windows "build") (world (snd first))))
                 (snd (run (safe_remove_tree_default windows "build") (world (snd first))))
                 (surjective_pairing _) (surjective_pairing _)).
  destruct H2 as [H2 _]. vm_compute in H2. discriminate H2.
Qed.

(** C4 (amended).  On a nonexistent path the call returns [True] after
    the existence check alone, the world untouched.  So whenever a first
    call leaves the original path nonexistent - it deleted the tree, or
    moved it to the trash and could not delete it there - a second call
    in a row returns [True] and leaves the filesystem exactly where the
    first call left it: the final state is that of a single call, and the
    returned value is [True] whatever the first call returned. *)
Theorem C4_idempotent_once_path_is_gone
  W (os : OS W) (path : string) retries delay ign (w : W) :
  (path_exists os (Path_of os path) w = false ->
   run (safe_remove_tree os path retries delay ign) w
   = (Ok true, mkSt w [EvExists (Path_of os path)])) /\
  (forall r1 s1,
      run (safe_remove_tree os path retries delay ign) w = (r1, s1) ->
      path_exists os (Path_of os path) (world s1) = false ->
      run (safe_remove_tree os path retries delay ign) (world s1)
      = (Ok true, mkSt (world s1) [EvExists (Path_of os path)])).
Proof.
  split.
  - intros H. unfold run. rewrite safe_remove_tree_missing by exact H. reflexivity.
  - intros r1 s1 _ H. unfold run. rewrite safe_remove_tree_missing by exact H. reflexivity.
Qed.

(** C4 (amended), on the execution of the counterexample. *)
Lemma C4_idempotent_once_path_is_gone_witness :
  let first := run (safe_remove_tree windows "build" 5 (1 # 2) true)
                   (base [stuck; stuck; stuck; stuck; stuck]) in
  fst first = Ok false /\
  path_exists windows (Path_of windows "build") (world (snd first)) = false /\
  run (safe_remove_tree windows "build" 5 (1 # 2) true) (world (snd first))
  = (Ok true, mkSt (world (snd first)) [EvExists (Path_of windows "build")]).
Proof.
  intros first.
  assert (G : path_exists windows (Path_of windows "build") (world (snd first)) = false)
    by (vm_compute; reflexivity).
  split; [vm_compute; reflexivity|]. split; [exact G|].
  exact (proj2 (@C4_idempotent_once_path_is_gone SWorld windows "build" 5%Z (1 # 2) true
                  (base [stuck; stuck; stuck; stuck; stuck]))
               (fst first) (snd first) (surjective_pairing first) G).
Defined.

(** ** Backoff (C5) *)

Section Backoff.

Variable W : Type.
Variable os : OS W.

Lemma sleeps_app l1 l2 : sleeps (l1 ++ l2) = sleeps l1 ++ sleeps l2.
Proof. unfold sleeps. apply flat_map_app. Qed.

Lemma sleeps_none evs :
  Forall (fun ev => is_sleep ev = false) evs -> sleeps evs = [].
Proof.
  induction 1 as [|ev evs H _ IH]; [reflexivity|].
  change (ev :: evs) with ([ev] ++ evs). rewrite sleeps_app, IH.
  destruct ev; cbn in *; try reflexivity. discriminate.
Qed.

(** Nothing before the retry loop sleeps. *)
Lemma choose_target_no_sleep p :
  emits (fun ev => is_sleep ev = false) (choose_target os p).
Proof.
  unfold choose_target, _ensure_not_cwd, remove_git_dir, make_trash_path, relocate.
  repeat emits_step; reflexivity.
Qed.

(** Two failed attempts and a successful third, for any base delay. *)
Lemma retry_third_time_lucky target delay s e1 w2 w3 e2 w4 w5 w6 :
  let h := _on_rm_error os in
  path_exists os target (world s) = true ->
  rmtree os target h (world s) = (Raised e1, w2) ->
  sleep os (delay * inject_Z 1) w2 = (Ok tt, w3) ->
  path_exists os target w3 = true ->
  rmtree os target h w3 = (Raised e2, w4) ->
  sleep os (delay * inject_Z 2) w4 = (Ok tt, w5) ->
  path_exists os target w5 = true ->
  rmtree os target h w5 = (Ok tt, w6) ->
  path_exists os target w6 = false ->
  retry_loop os target delay (py_range1 3) s
  = (Ok true,
     mkSt w6 (trace s ++
              [EvExists target; EvRmtree target; EvSleep (delay * inject_Z 1);
               EvExists target; EvRmtree target; EvSleep (delay * inject_Z 2);
               EvExists target; EvRmtree target; EvExists target])).
Proof.
  intros h E1 R1 S1 E2 R2 S2 E3 R3 E4.
  change (py_range1 3) with [1%Z; 2%Z; 3%Z]. cbn [retry_loop].
  unfold bind at 1.
  rewrite (attempt_body_raises os target delay 1 s E1 R1 S1).
  unfold bind at 1.
  erewrite attempt_body_raises; [| exact E2 | exact R2 | exact S2].
  unfold bind at 1.
  erewrite attempt_body_returns; [| exact E3 | exact R3].
  cbn [world]. rewrite E4. cbn [negb trace]. unfold ret.
  repeat rewrite <- app_assoc. reflexivity.
Qed.

End Backoff.

(** C5.  [retries=3], [delay=0.1], a directory that exists, and a
    deletion target whose first two removals raise and leave it in place
    while the third removes it.  The call returns [True]; after the steps
    that choose the target its trace is: attempt, sleep [0.1], attempt,
    sleep [0.2], attempt, check.  These are the only two sleeps of the
    whole call, [delay * 1] and [delay * 2], and the world the call ends
    in is the one the third removal produced. *)
Theorem C5_two_backoff_sleeps
  W (os : OS W) (path : string) ign (w : W) target s1 e1 w2 w3 e2 w4 w5 w6 :
  path_exists os (Path_of os path) w = true ->
  choose_target os (Path_of os path) (mkSt w [EvExists (Path_of os path)])
  = (Ok target, s1) ->
  path_exists os target (world s1) = true ->
  rmtree os target (_on_rm_error os) (world s1) = (Raised e1, w2) ->
  sleep os (1 # 10) w2 = (Ok tt, w3) ->
  path_exists os target w3 = true ->
  rmtree os target (_on_rm_error os) w3 = (Raised e2, w4) ->
  sleep os (2 # 10) w4 = (Ok tt, w5) ->
  path_exists os target w5 = true ->
  rmtree os target (_on_rm_error os) w5 = (Ok tt, w6) ->
  path_exists os target w6 = false ->
  exists s,
    run (safe_remove_tree os path 3 (1 # 10) ign) w = (Ok true, s) /\
    world s = w6 /\
    trace s = trace s1 ++
              [EvExists target; EvRmtree target; EvSleep (1 # 10);
               EvExists target; EvRmtree target; EvSleep (2 # 10);
               EvExists target; EvRmtree target; EvExists target] /\
    sleeps (trace s) = [1 # 10; 2 # 10] /\
    ((1 # 10) == (1 # 10) * 1 /\ (2 # 10) == (1 # 10) * 2 /\ (2 # 10) == 0.2)%Q.
Proof.
  intros E0 C E1 R1 S1 E2 R2 S2 E3 R3 E4.
  eexists. split; [|split; [|split; [|split]]].
  - unfold run. rewrite safe_remove_tree_phases by exact E0.
    cbn [world trace app]. unfold bind at 1. rewrite C. unfold delete_target. unfold bind at 1.
    rewrite (retry_third_time_lucky os target (1 # 10) s1 E1 R1 S1 E2 R2 S2 E3 R3 E4).
    reflexivity.
  - reflexivity.
  - reflexivity.
  - cbn [trace]. rewrite sleeps_app.
    destruct (choose_target_no_sleep os (Path_of os path) _ C) as (evs & T & F).
    rewrite T. cbn [trace]. rewrite sleeps_app, (sleeps_none F). reflexivity.
  - repeat split; reflexivity.
Qed.

(** C5, on a directory whose first two removals are scripted to fail. *)
Lemma C5_two_backoff_sleeps_witness :
  exists s,
    run (safe_remove_tree windows "build" 3 (1 # 10) true) (base [stuck; stuck; clean])
    = (Ok true, s) /\
    sleeps (trace s) = [1 # 10; 2 # 10] /\
    rmtree_calls (trace s)
    = [["/"; "tmp"; "build-trash-a1"]; ["/"; "tmp"; "build-trash-a1"];
       ["/"; "tmp"; "build-trash-a1"]].
Proof.
  destruct (@C5_two_backoff_sleeps SWorld windows "build" true
              (base [stuck; stuck; clean])
              ["/"; "tmp"; "build-trash-a1"]
              (snd (choose_target windows ["build"]
                      (mkSt (base [stuck; stuck; clean]) [EvExists ["build"]])))
              (os_error "rmtree")
              (world (snd (attempt_body windows ["/"; "tmp"; "build-trash-a1"] (1 # 10) 1
                 (snd (choose_target windows ["build"]
                      (mkSt (base [stuck; stuck; clean]) [EvExists ["build"]]))))))
              (world (snd (attempt_body windows ["/"; "tmp"; "build-trash-a1"] (1 # 10) 1
                 (snd (choose_target windows ["build"]
                      (mkSt (base [stuck; stuck; clean]) [EvExists ["build"]]))))))
              (os_error "rmtree")
              (world (snd (retry_loop windows ["/"; "tmp"; "build-trash-a1"] (1 # 10) [1; 2]%Z
                 (snd (choose_target windows ["build"]
                      (mkSt (base [stuck; stuck; clean]) [EvExists ["build"]]))))))
              (world (snd (retry_loop windows ["/"; "tmp"; "build-trash-a1"] (1 # 10) [1; 2]%Z
                 (snd (choose_target windows ["build"]
                      (mkSt (base [stuck; stuck; clean]) [EvExists ["build"]]))))))
              (world (snd (retry_loop windows ["/"; "tmp"; "build-trash-a1"] (1 # 10) [1; 2; 3]%Z
                 (snd (choose_target windows ["build"]
                      (mkSt (base [stuck; stuck; clean]) [EvExists ["build"]]))))))
              eq_refl eq_refl eq_refl eq_refl eq_refl eq_refl eq_refl eq_refl eq_refl
              eq_refl eq_refl)
    as (s & R & Wd & T & Sl & _).
  exists s. split; [exact R|]. split; [exact Sl|].
  rewrite T. reflexivity.
Defined.

(** ** Relocation (C6) *)

(** C6.  With the guard and the [.git] pre-clean behind it and the trash
    path [tempdir / ("build-trash-" + uuid hex)] computed, relocation
    first renames the original path to the trash path; the generic move,
    to the same trash path, is called only when the rename raised.
    [moved] is true when one of the two returned and false when both
    raised; relocation itself never raises, and the rest of the call is
    the deletion phase run on the trash path when [moved] and on the
    original path otherwise, from the state relocation left. *)
Theorem C6_relocation_two_strategies
  W (os : OS W) (path : string) retries delay ign (w : W) s0 s1 tmp w2 hex w3 :
  let p := Path_of os path in
  let trash := joinpath (Path_of os tmp) ("build-trash-" ++ hex) in
  let s3 := mkSt w3 ((trace s1 ++ [EvGettempdir]) ++ [EvUuid4]) in
  path_exists os p w = true ->
  _ensure_not_cwd os p (mkSt w [EvExists p]) = (Ok tt, s0) ->
  remove_git_dir os p s0 = (Ok tt, s1) ->
  gettempdir os (world s1) = (Ok tmp, w2) ->
  uuid4_hex os w2 = (Ok hex, w3) ->
  exists moved s4,
    relocate os p trash s3 = (Ok moved, s4) /\
    match rename os p trash w3 with
    | (Ok _, w4) =>
        moved = true /\ s4 = mkSt w4 (trace s3 ++ [EvRename p trash])
    | (Raised _, w4) =>
        match move os (str_of os p) (str_of os trash) w4 with
        | (r, w5) =>
            moved = match r with Ok _ => true | Raised _ => false end /\
            s4 = mkSt w5 ((trace s3 ++ [EvRename p trash])
                            ++ [EvMove (str_of os p) (str_of os trash)])
        end
    end /\
    run (safe_remove_tree os path retries delay ign) w
    = delete_target os path (if moved then trash else p) retries delay ign s4.
Proof.
  intros p trash s3 E G Gi T U.
  assert (Hs : forall moved s4, relocate os p trash s3 = (Ok moved, s4) ->
            run (safe_remove_tree os path retries delay ign) w
            = delete_target os path (if moved then trash else p) retries delay ign s4).
  { intros moved s4 R. unfold run. rewrite safe_remove_tree_phases by exact E.
    cbn [world trace app]. unfold choose_target. fold p.
    unfold bind at 1. unfold bind at 1. rewrite G.
    unfold bind at 1. rewrite Gi.
    unfold bind at 1. unfold make_trash_path. unfold bind at 1. unfold call at 1.
    rewrite T. unfold bind at 1. unfold call at 1. cbn [world trace]. rewrite U.
    unfold ret at 1. fold trash. fold s3.
    unfold bind at 1. rewrite R. reflexivity. }
  pose proof (relocate_cases os p trash s3) as RC.
  change (world s3) with w3 in RC.
  destruct (rename os p trash w3) as [[[]|e] w4].
  - exists true, (mkSt w4 (trace s3 ++ [EvRename p trash])).
    split; [exact RC|]. split; [split; reflexivity|]. exact (Hs true _ RC).
  - destruct (move os (str_of os p) (str_of os trash) w4) as [[[]|e'] w5].
    + eexists true, _. split; [exact RC|]. split; [split; reflexivity|].
      exact (Hs true _ RC).
    + eexists false, _. split; [exact RC|]. split; [split; reflexivity|].
      exact (Hs false _ RC).
Qed.

(** C6, in a world where the rename is refused and the move goes through. *)
Lemma C6_relocation_two_strategies_witness :
  let w := mkSWorld [["/"; "home"]; ["/"; "tmp"]; ["build"]; ["build"; "obj"]]
                    (Some ["/"; "home"]) "/tmp" ["a1"] false true [] [] in
  exists moved s4,
    relocate windows ["build"] ["/"; "tmp"; "build-trash-a1"]
             (mkSt (mkSWorld (present w) (cwd w) "/tmp" [] false true [] [])
                   [EvExists ["build"]; EvGetcwd; EvResolve ["/"; "home"];
                    EvResolve ["build"]; EvResolve ["build"];
                    EvExists ["build"; ".git"]; EvGettempdir; EvUuid4])
    = (Ok moved, s4) /\
    moved = true /\
    trace s4
    = [EvExists ["build"]; EvGetcwd; EvResolve ["/"; "home"];
       EvResolve ["build"]; EvResolve ["build"];
       EvExists ["build"; ".git"]; EvGettempdir; EvUuid4;
       EvRename ["build"] ["/"; "tmp"; "build-trash-a1"];
       EvMove "build" "/tmp/build-trash-a1"] /\
    run (safe_remove_tree windows "build" 5 (1 # 2) true) w
    = delete_target windows "build" ["/"; "tmp"; "build-trash-a1"] 5 (1 # 2) true s4.
Proof.
  intros w.
  destruct (@C6_relocation_two_strategies SWorld windows "build" 5 (1 # 2) true w
              (snd (_ensure_not_cwd windows ["build"] (mkSt w [EvExists ["build"]])))
              (snd (remove_git_dir windows ["build"]
                      (snd (_ensure_not_cwd windows ["build"] (mkSt w [EvExists ["build"]])))))
              "/tmp" w "a1" (mkSWorld (present w) (cwd w) "/tmp" [] false true [] [])
              eq_refl eq_refl eq_refl eq_refl eq_refl)
    as (moved & s4 & R & C & D).
  exists moved, s4. split; [exact R|].
  vm_compute in C. destruct C as [C1 C2]. split; [exact C1|].
  split; [rewrite C2; reflexivity|].
  rewrite D, C1. reflexivity.
Defined.

(** ** The version-control pre-clean (C7) *)

Section Preclean.

Variable W : Type.
Variable os : OS W.

Lemma rmtree_calls_app l1 l2 :
  rmtree_calls (l1 ++ l2) = rmtree_calls l1 ++ rmtree_calls l2.
Proof. unfold rmtree_calls. apply flat_map_app. Qed.

Lemma removes_only_calls target evs :
  Forall (removes_only target) evs ->
  forall q, In q (rmtree_calls evs) -> q = target.
Proof.
  induction 1 as [|ev evs H _ IH]; intros q Hq; [destruct Hq|].
  change (ev :: evs) with ([ev] ++ evs) in Hq.
  rewrite rmtree_calls_app in Hq. apply in_app_or in Hq. destruct Hq as [Hq|Hq].
  - destruct ev; cbn in Hq; try contradiction.
    destruct Hq as [<-|[]]. exact H.
  - auto.
Qed.

(** The pre-clean of lines 56-63 never raises. *)
Lemma remove_git_dir_cases p s :
  let git_dir := joinpath p ".git" in
  if path_exists os git_dir (world s)
  then remove_git_dir os p s
       = (Ok tt, mkSt (snd (rmtree os git_dir (_on_rm_error os) (world s)))
                      ((trace s ++ [EvExists git_dir]) ++ [EvRmtree git_dir]))
  else remove_git_dir os p s
       = (Ok tt, mkSt (world s) (trace s ++ [EvExists git_dir])).
Proof.
  intros git_dir. unfold remove_git_dir. fold git_dir. unfold_py.
  destruct (path_exists os git_dir (world s)); [|reflexivity].
  cbn [world trace].
  destruct (rmtree os git_dir (_on_rm_error os) (world s)) as [[[]|e] w1]; reflexivity.
Qed.

(** Up to and including relocation, the only removal is that of [.git]
    under the original path. *)
Lemma choose_target_emits p :
  emits (removes_only (joinpath p ".git")) (choose_target os p).
Proof.
  unfold choose_target, _ensure_not_cwd, remove_git_dir, make_trash_path, relocate.
  repeat emits_step; cbn; auto.
Qed.

End Preclean.

(** C7 (counterexample).  A checkout whose [.git] resists the pre-clean
    is moved to the trash;
    [.git] then sits directly under the deletion target, and the deletion
    phase removes the target as a whole, nothing else. *)
Lemma C7_no_preclean_in_deletion_phase : ~ deletion_phase_precleans_vcs.
Proof.
  intros H.
  specialize (H SWorld windows "build" ["/"; "tmp"; "build-trash-a1"] 5%Z (1 # 2) true
                (world (snd (choose_target windows ["build"]
                               (mkSt (checkout [stuck; clean]) []))))
                eq_refl).
  vm_compute in H. destruct H as [H|[]]. discriminate H.
Qed.

(** C7 (amended).  There is one best-effort removal of [.git]: the one
    [safe_remove_tree] performs under the original path before
    relocation.  It is attempted exactly when that [.git] exists and it
    never raises, whatever the removal does.  The deletion phase has no
    pre-clean of its own: every removal it issues is a removal of its
    whole target, so a [.git] under a relocated target goes only with the
    tree.  Over a whole call, each removal is either that of [.git] under
    the original path, made before the target is chosen, or one of the
    target. *)
Theorem C7_single_preclean_before_relocation
  W (os : OS W) (path : string) retries delay ign :
  let p := Path_of os path in
  let git_dir := joinpath p ".git" in
  (forall s, exists s',
      remove_git_dir os p s = (Ok tt, s') /\
      trace s' = trace s ++ EvExists git_dir ::
                 (if path_exists os git_dir (world s) then [EvRmtree git_dir] else [])) /\
  (forall target s r s',
      delete_target os path target retries delay ign s = (r, s') ->
      exists evs, trace s' = trace s ++ evs /\
                  forall q, In q (rmtree_calls evs) -> q = target) /\
  (forall w r s,
      run (safe_remove_tree os path retries delay ign) w = (r, s) ->
      trace s = [EvExists p] \/
      exists evs1 evs2,
        trace s = EvExists p :: evs1 ++ evs2 /\
        (forall q, In q (rmtree_calls evs1) -> q = git_dir) /\
        (forall target s1,
            choose_target os p (mkSt w [EvExists p]) = (Ok target, s1) ->
            trace s1 = EvExists p :: evs1 /\
            forall q, In q (rmtree_calls evs2) -> q = target)).
Proof.
  intros p git_dir. split; [|split].
  - intros s. pose proof (remove_git_dir_cases os p s) as H. cbv zeta in H.
    fold git_dir in H.
    destruct (path_exists os git_dir (world s)); rewrite H; eexists; split;
      try reflexivity; cbn [trace]; rewrite <- ?app_assoc; reflexivity.
  - intros target s r s' H.
    destruct (delete_target_emits os path target retries delay ign _ H) as (evs & T & F).
    exists evs. split; [exact T|]. apply removes_only_calls. exact F.
  - intros w r s H. unfold run in H.
    destruct (path_exists os p w) eqn:E.
    + right. rewrite safe_remove_tree_phases in H by exact E. cbn [world trace app] in H.
      unfold bind in H. change (Path_of os path) with p in H.
      destruct (choose_target os p (mkSt w [EvExists p])) as [[target|e] s1] eqn:C.
      * destruct (choose_target_emits os p _ C) as (evs1 & T1 & F1).
        destruct (delete_target_emits os path target retries delay ign _ H)
          as (evs2 & T2 & F2).
        exists evs1, evs2. cbn [trace app] in T1. split; [|split].
        -- rewrite T2, T1. reflexivity.
        -- apply removes_only_calls. exact F1.
        -- intros target' s1' Eq. inversion Eq; subst. split; [exact T1|].
           apply removes_only_calls. exact F2.
      * inversion H; subst.
        destruct (choose_target_emits os p _ C) as (evs1 & T1 & F1).
        exists evs1, []. cbn [trace app] in T1. split; [|split].
        -- rewrite app_nil_r. exact T1.
        -- apply removes_only_calls. exact F1.
        -- intros ? ? Eq. discriminate Eq.
    + left. rewrite safe_remove_tree_missing in H by exact E. inversion H. reflexivity.
Qed.

(** C7 (amended), on the execution of the counterexample. *)
Lemma C7_single_preclean_before_relocation_witness :
  let s := snd (choose_target windows ["build"] (mkSt (checkout [stuck; clean]) [])) in
  path_exists windows ["/"; "tmp"; "build-trash-a1"; ".git"] (world s) = true /\
  exists evs,
    trace (snd (delete_target windows "build" ["/"; "tmp"; "build-trash-a1"] 5 (1 # 2) true s))
    = trace s ++ evs /\
    forall q, In q (rmtree_calls evs) -> q = ["/"; "tmp"; "build-trash-a1"].
Proof.
  intros s. split; [vm_compute; reflexivity|].
  exact (proj1 (proj2 (@C7_single_preclean_before_relocation SWorld windows "build"
                         5%Z (1 # 2) true))
               ["/"; "tmp"; "build-trash-a1"] s _ _ (surjective_pairing _)).
Defined.

(** ** The walk over a build-result tree (C9, C10) *)

(** Induction over build results, through the list of sub-libraries. *)
Lemma BuildResult_nested_ind (P : BuildResult -> Prop) :
  (forall bd sl, all_sub_libs P sl -> P (Result bd sl)) ->
  forall r, P r.
Proof.
  intros step.
  exact (fix F (r : BuildResult) : P r :=
           match r with
           | Result bd sl =>
               step bd sl
                 (match sl return all_sub_libs P sl with
                  | Val l0 =>
                      (fix all (l : list (string * option BuildResult))
                         : all_entries P l :=
                         match l with
                         | [] => I
                         | (n, Some r0) :: l' => conj (F r0) (all l')
                         | (n, None) :: l' => all l'
                         end) l0
                  | Absent => I
                  | PyNone => I
                  end)
           end).
Qed.

Section Walk.

Variable W : Type.
Variable os : OS W.

Lemma bind_assoc S A B C (m : M S A) (k : A -> M S B) (k' : B -> M S C) s :
  bind (bind m k) k' s = bind m (fun a => bind (k a) k') s.
Proof.
  unfold bind. destruct (m s) as [[a|e] s1]; reflexivity.
Qed.

Lemma bind_ext S A B (m : M S A) (k k' : A -> M S B) s :
  (forall a s1, k a s1 = k' a s1) -> bind m k s = bind m k' s.
Proof.
  intros H. unfold bind. destruct (m s) as [[a|e] s1]; [apply H|reflexivity].
Qed.

Lemma remove_each_app l1 l2 s :
  remove_each os (l1 ++ l2) s = bind (remove_each os l1) (fun _ => remove_each os l2) s.
Proof.
  revert s. induction l1 as [|d l1 IH]; intros s; cbn [remove_each app].
  - reflexivity.
  - rewrite bind_assoc. apply bind_ext. intros _ s1. apply IH.
Qed.

(** The body of [cleanup_build_files], as its two halves in sequence. *)
Lemma cleanup_result_halves bd sl s :
  cleanup_result os (Result bd sl) s
  = bind (delete_build_dir os bd) (fun _ => cleanup_sub_libs os sl) s.
Proof.
  cbn [cleanup_result]. unfold delete_build_dir, cleanup_sub_libs.
  apply bind_ext. intros _ s1.
  destruct sl as [| |l]; reflexivity.
Qed.

Lemma cleanup_sub_libs_items (l : list (string * option BuildResult)) s :
  cleanup_sub_libs os (Val l) s = cleanup_items os l s.
Proof.
  unfold cleanup_sub_libs. cbn [dict_get]. destruct l; reflexivity.
Qed.

(** The walk deletes the truthy build directories of the tree, one after
    the other in traversal order, and does nothing else. *)
Lemma cleanup_result_walk r :
  forall s, cleanup_result os r s = remove_each os (build_dirs r) s.
Proof.
  induction r as [bd sl IH] using BuildResult_nested_ind. intros s.
  rewrite cleanup_result_halves. cbn [build_dirs]. rewrite remove_each_app.
  unfold bind at 1 2.
  assert (Hd : delete_build_dir os bd s
               = remove_each os (match dict_get bd with
                                 | Some d => if truthy_str d then [d] else []
                                 | None => []
                                 end) s).
  { unfold delete_build_dir. destruct (dict_get bd) as [d|]; [|reflexivity].
    destruct (truthy_str d); reflexivity. }
  rewrite Hd.
  destruct (remove_each os _ s) as [[[]|e] s1]; [|reflexivity].
  destruct sl as [| |l]; try reflexivity.
  rewrite cleanup_sub_libs_items. cbn [all_sub_libs] in IH.
  clear Hd. revert s1. induction l as [|[name [r|]] l IHl]; intros s1.
  - reflexivity.
  - destruct IH as [Hr Hl]. cbn [cleanup_items cleanup_build_files].
    rewrite remove_each_app. unfold bind. rewrite Hr.
    destruct (remove_each os (build_dirs r) s1) as [[[]|e] s2]; [|reflexivity].
    apply IHl. exact Hl.
  - cbn [cleanup_items cleanup_build_files app]. unfold bind at 1. unfold ret at 1.
    apply IHl. exact IH.
Qed.

Lemma build_dirs_sub r1 r2 d :
  sub_result r1 r2 -> In d (build_dirs r2) -> In d (build_dirs r1).
Proof.
  destruct r1 as [bd1 [| |l]]; try contradiction.
  intros [name Hin] Hd. cbn [build_dirs]. apply in_or_app. right.
  induction l as [|[n i] l IHl]; [destruct Hin|].
  destruct Hin as [Heq|Hin].
  - inversion Heq; subst. apply in_or_app. left. exact Hd.
  - apply in_or_app. right. apply IHl. exact Hin.
Qed.

(** Every truthy [buildDir] of the tree is among the deleted ones,
    however deep its node. *)
Lemma build_dirs_complete root r :
  occurs_in root r ->
  forall d, In d (build_dirs r) -> In d (build_dirs root).
Proof.
  induction 1 as [|r1 r2 H IH Hsub]; intros d Hd; [exact Hd|].
  apply IH. eapply build_dirs_sub; eauto.
Qed.

End Walk.

(** C9.  [cleanup_build_files(None)] returns at once, the state
    untouched.  On the tree of the example the walk is the default
    deletion of ["A"] followed by the default deletion of ["B"], and
    nothing more: the node whose [buildDir] is [None] adds no call.  In
    general the walk is the sequence of default deletions of the truthy
    build directories of the tree in traversal order, and that list holds
    the build directory of every node that occurs in the tree, at any
    depth.  (In a sequence, a deletion that raises ends the walk.) *)
Theorem C9_cleanup_walks_whole_tree W (os : OS W) :
  (forall s, cleanup_build_files os None s = (Ok tt, s)) /\
  (forall s, cleanup_build_files os (Some example_tree) s
             = (safe_remove_tree_default os "A" ;;
                safe_remove_tree_default os "B" ;;
                ret tt) s) /\
  build_dirs example_tree = ["A"; "B"] /\
  (forall r s, cleanup_build_files os (Some r) s = remove_each os (build_dirs r) s) /\
  (forall root d sl,
      occurs_in root (Result (Val d) sl) -> truthy_str d = true ->
      In d (build_dirs root)).
Proof.
  split; [reflexivity|]. split; [|split; [reflexivity|split]].
  - intros s. cbn [cleanup_build_files]. rewrite cleanup_result_walk. reflexivity.
  - intros r s. cbn [cleanup_build_files]. apply cleanup_result_walk.
  - intros root d sl H T. eapply build_dirs_complete; [exact H|].
    cbn [build_dirs dict_get]. rewrite T. left. reflexivity.
Qed.

(** C9, for the node under ["x"] of the example. *)
Lemma C9_cleanup_walks_whole_tree_witness :
  occurs_in example_tree (Result (Val "B") (Val [])) /\
  In "B" (build_dirs example_tree).
Proof.
  assert (H : occurs_in example_tree (Result (Val "B") (Val []))).
  { eapply occurs_below; [apply occurs_here|]. exists "x". left. reflexivity. }
  split; [exact H|].
  exact (proj2 (proj2 (proj2 (proj2 (@C9_cleanup_walks_whole_tree SWorld windows))))
               example_tree "B" (Val []) H eq_refl).
Defined.

(** C10.  The falsy values of [buildDir] are the absent key, [None] and
    the empty string; those of [subLibs] are the absent key, [None] and
    the empty mapping.  With a falsy [buildDir] the node is handled by
    the walk over its sub-libraries alone, with no deletion for the node;
    with a falsy [subLibs] it is handled by the deletion of its build
    directory alone, with no recursion; with both falsy the call returns
    at once, the state untouched: no call, no exception. *)
Theorem C10_falsy_fields_are_skipped
  W (os : OS W) (bd : Field string)
  (sl : Field (list (string * option BuildResult))) (s : St W) :
  (falsy_dir bd = true <-> bd = Absent \/ bd = PyNone \/ bd = Val "") /\
  (falsy_libs sl = true <-> sl = Absent \/ sl = PyNone \/ sl = Val []) /\
  (falsy_dir bd = true ->
   cleanup_build_files os (Some (Result bd sl)) s = cleanup_sub_libs os sl s) /\
  (falsy_libs sl = true ->
   cleanup_build_files os (Some (Result bd sl)) s = delete_build_dir os bd s) /\
  (falsy_dir bd = true -> falsy_libs sl = true ->
   cleanup_build_files os (Some (Result bd sl)) s = (Ok tt, s)).
Proof.
  assert (Hd : falsy_dir bd = true -> forall s', delete_build_dir os bd s' = (Ok tt, s')).
  { unfold falsy_dir, delete_build_dir. destruct (dict_get bd) as [d|]; [|reflexivity].
    destruct (truthy_str d); [discriminate|reflexivity]. }
  assert (Hl : falsy_libs sl = true -> forall s', cleanup_sub_libs os sl s' = (Ok tt, s')).
  { unfold falsy_libs, cleanup_sub_libs. destruct (dict_get sl) as [l|]; [|reflexivity].
    destruct (truthy_items l); [discriminate|reflexivity]. }
  split; [|split; [|split; [|split]]].
  - split.
    + destruct bd as [| |[|c d]]; cbn; auto. discriminate.
    + intros [->|[->| ->]]; reflexivity.
  - split.
    + destruct sl as [| |[|e l]]; cbn; auto. discriminate.
    + intros [->|[->| ->]]; reflexivity.
  - intros F. cbn [cleanup_build_files]. rewrite cleanup_result_halves.
    unfold bind. rewrite (Hd F). reflexivity.
  - intros F. cbn [cleanup_build_files]. rewrite cleanup_result_halves.
    unfold bind. destruct (delete_build_dir os bd s) as [[[]|e] s1]; [|reflexivity].
    apply (Hl F).
  - intros F1 F2. cbn [cleanup_build_files]. rewrite cleanup_result_halves.
    unfold bind. rewrite (Hd F1). apply (Hl F2).
Qed.

(** C10, for a node with an empty [buildDir] and [subLibs] set to [None]. *)
Lemma C10_falsy_fields_are_skipped_witness :
  falsy_dir (Val "") = true /\
  falsy_libs (A := string * option BuildResult) PyNone = true /\
  cleanup_build_files windows (Some (Result (Val "") PyNone)) (mkSt (base []) [])
  = (Ok tt, mkSt (base []) []).
Proof.
  split; [reflexivity|]. split; [reflexivity|].
  exact (proj2 (proj2 (proj2 (proj2
           (@C10_falsy_fields_are_skipped SWorld windows (Val "") PyNone
              (mkSt (base []) []))))) eq_refl eq_refl).
Defined.

(** ** Removal in the filesystem tree (C8) *)

Import TreeFS.

Section TreeFacts.

Lemma find_kid_alter_same n g ks :
  find_kid n (alter_kid n (fun c => Some (g c)) ks) = option_map g (find_kid n ks).
Proof.
  induction ks as [|[m c] ks IH]; cbn; [reflexivity|].
  destruct (String.eqb m n) eqn:E; cbn; rewrite E; [reflexivity|exact IH].
Qed.

Lemma alter_kid_twice n g1 g2 ks :
  alter_kid n g2 (alter_kid n (fun c => Some (g1 c)) ks)
  = alter_kid n (fun c => g2 (g1 c)) ks.
Proof.
  induction ks as [|[m c] ks IH]; cbn; [reflexivity|].
  destruct (String.eqb m n) eqn:E; cbn; rewrite E; [reflexivity|].
  rewrite IH. reflexivity.
Qed.

Lemma alter_kid_ext n f g ks :
  (forall c, f c = g c) -> alter_kid n f ks = alter_kid n g ks.
Proof.
  intros H. induction ks as [|[m c] ks IH]; cbn; [reflexivity|].
  rewrite H, IH. reflexivity.
Qed.

Lemma alter_kid_id n g ks :
  (forall c, find_kid n ks = Some c -> g c = Some c) -> alter_kid n g ks = ks.
Proof.
  induction ks as [|[m c] ks IH]; cbn; intros H; [reflexivity|].
  destruct (String.eqb m n) eqn:E.
  - rewrite (H c eq_refl). reflexivity.
  - rewrite IH; [reflexivity|exact H].
Qed.

Lemma lookup_app p q t :
  lookup (p ++ q) t = match lookup p t with
                      | Some c => lookup q c
                      | None => None
                      end.
Proof.
  revert t. induction p as [|n p IH]; intros t; cbn; [reflexivity|].
  destruct t as [ro|ks]; [reflexivity|].
  destruct (find_kid n ks) as [c|]; [apply IH|reflexivity].
Qed.

Lemma lookup_alter_same p g t :
  p <> [] ->
  lookup p (alter_at p (fun c => Some (g c)) t) = option_map g (lookup p t).
Proof.
  revert t. induction p as [|n p IH]; intros t Hp; [contradiction|].
  destruct t as [ro|ks]; [reflexivity|].
  cbn [alter_at lookup]. destruct p as [|m p].
  - rewrite find_kid_alter_same. destruct (find_kid n ks); reflexivity.
  - rewrite find_kid_alter_same. destruct (find_kid n ks) as [c|]; cbn [option_map].
    + apply IH. discriminate.
    + reflexivity.
Qed.

Lemma alter_app p q f t :
  p <> [] -> q <> [] ->
  alter_at (p ++ q) f t = alter_at p (fun c => Some (alter_at q f c)) t.
Proof.
  revert t. induction p as [|n p IH]; intros t Hp Hq; [contradiction|].
  destruct t as [ro|ks]; [reflexivity|].
  cbn [app alter_at]. destruct p as [|m p].
  - cbn [app]. destruct q; [contradiction|reflexivity].
  - cbn [app]. f_equal. apply alter_kid_ext. intros c. f_equal.
    apply (IH c); [discriminate|exact Hq].
Qed.

Lemma alter_twice p g1 g2 t :
  p <> [] ->
  alter_at p g2 (alter_at p (fun c => Some (g1 c)) t)
  = alter_at p (fun c => g2 (g1 c)) t.
Proof.
  revert t. induction p as [|n p IH]; intros t Hp; [contradiction|].
  destruct t as [ro|ks]; [reflexivity|].
  cbn [alter_at]. destruct p as [|m p].
  - rewrite alter_kid_twice. reflexivity.
  - rewrite alter_kid_twice. f_equal. apply alter_kid_ext. intros c. f_equal.
    apply IH. discriminate.
Qed.

Lemma lookup_alter_below p q f t :
  q <> [] ->
  lookup p (alter_at (p ++ q) f t) = option_map (alter_at q f) (lookup p t).
Proof.
  intros Hq. destruct p as [|n p]; [reflexivity|].
  rewrite alter_app by (discriminate || exact Hq).
  apply lookup_alter_same. discriminate.
Qed.

Lemma remove_alter_below p q f t :
  p <> [] -> q <> [] ->
  remove_at p (alter_at (p ++ q) f t) = remove_at p t.
Proof.
  intros Hp Hq. unfold remove_at. rewrite alter_app by assumption.
  apply alter_twice. exact Hp.
Qed.

Lemma remove_alter_same p g t :
  p <> [] ->
  remove_at p (alter_at p (fun c => Some (g c)) t) = remove_at p t.
Proof.
  intros Hp. unfold remove_at. apply alter_twice. exact Hp.
Qed.

Lemma remove_insert q new t :
  q <> [] -> is_dir (lookup (removelast q) t) = true ->
  remove_at q (insert_at q new t) = t.
Proof.
  revert t. induction q as [|n q IH]; intros t Hq Hd; [contradiction|].
  destruct q as [|m q].
  - cbn in Hd. destruct t as [ro|ks]; [discriminate|].
    cbn. rewrite String.eqb_refl. reflexivity.
  - change (removelast (n :: m :: q)) with (n :: removelast (m :: q)) in Hd.
    destruct t as [ro|ks]; [discriminate|].
    cbn [lookup] in Hd. unfold remove_at. cbn [insert_at alter_at].
    rewrite alter_kid_twice. f_equal. apply alter_kid_id.
    intros c Hc. rewrite Hc in Hd. f_equal.
    apply (IH c); [discriminate|exact Hd].
Qed.

Lemma lookup_insert q new t :
  q <> [] -> is_dir (lookup (removelast q) t) = true ->
  lookup q (insert_at q new t) = Some new.
Proof.
  revert t. induction q as [|n q IH]; intros t Hq Hd; [contradiction|].
  destruct q as [|m q].
  - cbn in Hd. destruct t as [ro|ks]; [discriminate|].
    cbn. rewrite String.eqb_refl. reflexivity.
  - change (removelast (n :: m :: q)) with (n :: removelast (m :: q)) in Hd.
    destruct t as [ro|ks]; [discriminate|].
    cbn [lookup] in Hd. cbn [insert_at lookup].
    rewrite find_kid_alter_same.
    destruct (find_kid n ks) as [c|]; [|discriminate].
    cbn [option_map]. apply IH; [discriminate|exact Hd].
Qed.

(** Well-formed directories. *)
Lemma wf_Dir_cons n c ks :
  wf (Dir ((n, c) :: ks)) <-> ~ In n (map fst ks) /\ wf c /\ wf (Dir ks).
Proof.
  cbn. split.
  - intros [Hn [Hc Hk]]. inversion Hn; subst. tauto.
  - intros [Hn [Hc [Hk1 Hk2]]]. split; [constructor; assumption|tauto].
Qed.

Lemma find_kid_in n c ks : find_kid n ks = Some c -> In n (map fst ks).
Proof.
  induction ks as [|[m c'] ks IH]; cbn; [discriminate|].
  destruct (String.eqb m n) eqn:E.
  - apply String.eqb_eq in E. auto.
  - auto.
Qed.

Lemma wf_find_kid n c ks : wf (Dir ks) -> find_kid n ks = Some c -> wf c.
Proof.
  induction ks as [|[m c'] ks IH]; [discriminate|].
  intros Hw. apply wf_Dir_cons in Hw. destruct Hw as (_ & Hc & Hk). cbn.
  destruct (String.eqb m n).
  - intros [= <-]. exact Hc.
  - apply IH. exact Hk.
Qed.

Lemma find_kid_removed n ks :
  NoDup (map fst ks) -> find_kid n (alter_kid n (fun _ => None) ks) = None.
Proof.
  induction ks as [|[m c] ks IH]; cbn; intros Hn; [reflexivity|].
  inversion Hn as [|? ? Hnot Hrest]; subst.
  destruct (String.eqb m n) eqn:E.
  - apply String.eqb_eq in E. subst m.
    destruct (find_kid n ks) as [c'|] eqn:F; [|reflexivity].
    exfalso. apply Hnot. eapply find_kid_in; eauto.
  - cbn. rewrite E. apply IH. exact Hrest.
Qed.

Lemma lookup_remove_same p t :
  wf t -> p <> [] -> lookup p (remove_at p t) = None.
Proof.
  revert t. induction p as [|n p IH]; intros t Hw Hp; [contradiction|].
  destruct t as [ro|ks]; [reflexivity|].
  unfold remove_at. cbn [alter_at lookup]. destruct p as [|m p].
  - rewrite find_kid_removed; [reflexivity|]. cbn in Hw. tauto.
  - rewrite find_kid_alter_same.
    destruct (find_kid n ks) as [c|] eqn:F; [|reflexivity].
    cbn [option_map]. apply IH; [|discriminate].
    eapply wf_find_kid; eauto.
Qed.

Lemma alter_kid_names n f ks m :
  In m (map fst (alter_kid n f ks)) -> In m (map fst ks).
Proof.
  induction ks as [|[k c] ks IH]; cbn; [auto|].
  destruct (String.eqb k n).
  - destruct (f c); cbn; tauto.
  - cbn. tauto.
Qed.

Lemma wf_alter_kid n f ks :
  (forall c c', wf c -> f c = Some c' -> wf c') ->
  wf (Dir ks) -> wf (Dir (alter_kid n f ks)).
Proof.
  intros Hf. induction ks as [|[m c] ks IH]; intros Hw; [exact Hw|].
  apply wf_Dir_cons in Hw. destruct Hw as (Hn & Hc & Hk).
  cbn [alter_kid]. destruct (String.eqb m n).
  - destruct (f c) as [c'|] eqn:F; [|exact Hk].
    apply wf_Dir_cons. split; [exact Hn|]. split; [|exact Hk]. exact (Hf c c' Hc F).
  - apply wf_Dir_cons. split; [|split; [exact Hc|apply IH; exact Hk]].
    intros Hin. apply Hn. eapply alter_kid_names; eauto.
Qed.

Lemma wf_alter p f t :
  (forall c c', wf c -> f c = Some c' -> wf c') ->
  wf t -> wf (alter_at p f t).
Proof.
  intros Hf. revert t. induction p as [|n p IH]; intros t Hw; [exact Hw|].
  destruct t as [ro|ks]; [exact Hw|].
  cbn [alter_at]. apply wf_alter_kid; [|exact Hw].
  destruct p as [|m p]; [exact Hf|].
  intros c c' Hc [= <-]. apply IH. exact Hc.
Qed.

(** Induction over trees, through the listings. *)
Lemma Tree_nested_ind (P : Tree -> Prop) :
  (forall ro, P (File ro)) ->
  (forall ks, all_kids P ks -> P (Dir ks)) ->
  forall t, P t.
Proof.
  intros HF HD.
  exact (fix F (t : Tree) : P t :=
           match t with
           | File ro => HF ro
           | Dir ks =>
               HD ks ((fix all (l : list (string * Tree)) : all_kids P l :=
                         match l with
                         | [] => I
                         | (n, c) :: l' => conj (F c) (all l')
                         end) ks)
           end).
Qed.

Variable name : string.
Let os : OS FsWorld := tree_os name.

Lemma set_root_same w : set_root w (root w) = w.
Proof. destruct w; reflexivity. Qed.

(** The repair hook on a read-only file: the attribute is cleared and
    the retried unlink removes the file. *)
Lemma repair_unlinks_readonly p w :
  p <> [] -> lookup p (root w) = Some (File true) ->
  _on_rm_error os op_unlink p w = (Ok tt, set_root w (remove_at p (root w))).
Proof.
  intros Hp L. unfold _on_rm_error, bind, try_except. cbn [os tree_os chmod entry_op].
  unfold fs_chmod. rewrite L. cbn [fs_entry_op]. unfold fs_unlink. cbn [root set_root].
  rewrite lookup_alter_same by exact Hp. rewrite L. cbn.
  rewrite remove_alter_same by exact Hp. reflexivity.
Qed.

(** Removing a tree of files and directories, read-only files included,
    takes exactly that tree out of the filesystem. *)
Lemma rmtree_walk_removes t :
  forall p w, p <> [] -> lookup p (root w) = Some t ->
  rmtree_walk (_on_rm_error os) p t w = (Ok tt, set_root w (remove_at p (root w))).
Proof.
  induction t as [ro|ks IH] using Tree_nested_ind; intros p w Hp L.
  - cbn [rmtree_walk]. unfold with_onerror. cbn [fs_entry_op]. unfold fs_unlink at 1.
    rewrite L. destruct ro.
    + apply repair_unlinks_readonly; assumption.
    + reflexivity.
  - pose (entries :=
            fix entries (l : list (string * Tree)) : M FsWorld unit :=
              match l with
              | [] => ret tt
              | (n, c) :: l' =>
                  bind (rmtree_walk (_on_rm_error os) (joinpath p n) c)
                       (fun _ => entries l')
              end).
    assert (Loop : forall l, all_kids (fun c => forall p w, p <> [] ->
                     lookup p (root w) = Some c ->
                     rmtree_walk (_on_rm_error os) p c w
                     = (Ok tt, set_root w (remove_at p (root w)))) l ->
              forall w, lookup p (root w) = Some (Dir l) ->
              exists X,
                entries l w = (Ok tt, set_root w X) /\
                lookup p X = Some (Dir []) /\
                remove_at p X = remove_at p (root w)).
    { clear - Hp. intros l. induction l as [|[n c] l IHl]; intros Hall w0 L0.
      - exists (root w0). rewrite set_root_same. auto.
      - destruct Hall as [Hc Hl].
        assert (Lc : lookup (joinpath p n) (root w0) = Some c).
        { unfold joinpath. rewrite lookup_app, L0. cbn. rewrite String.eqb_refl.
          reflexivity. }
        assert (Hj : joinpath p n <> []) by (unfold joinpath; destruct p; discriminate).
        cbn [entries]. unfold bind at 1. rewrite (Hc _ w0 Hj Lc).
        set (w1 := set_root w0 (remove_at (joinpath p n) (root w0))).
        assert (L1 : lookup p (root w1) = Some (Dir l)).
        { cbn [w1 root set_root]. unfold joinpath, remove_at.
          rewrite lookup_alter_below by discriminate. rewrite L0. cbn.
          rewrite String.eqb_refl. reflexivity. }
        destruct (IHl Hl w1 L1) as (X & E & LX & RX).
        exists X. split; [exact E|]. split; [exact LX|].
        rewrite RX. cbn [w1 root set_root].
        unfold joinpath. unfold remove_at at 2.
        apply remove_alter_below; [exact Hp|discriminate]. }
    destruct (Loop ks IH w L) as (X & E & LX & RX).
    change (rmtree_walk (_on_rm_error os) p (Dir ks) w)
      with (bind (entries ks) (fun _ => with_onerror (_on_rm_error os) op_rmdir p) w).
    unfold bind. rewrite E. unfold with_onerror. cbn [fs_entry_op]. unfold fs_rmdir.
    cbn [root set_root]. rewrite LX, RX. reflexivity.
Qed.

Lemma fs_rmtree_removes p w ks :
  p <> [] -> lookup p (root w) = Some (Dir ks) ->
  rmtree os p (_on_rm_error os) w = (Ok tt, set_root w (remove_at p (root w))).
Proof.
  intros Hp L. cbn [os tree_os rmtree]. unfold fs_rmtree. rewrite L.
  apply rmtree_walk_removes; assumption.
Qed.

(** On a file the scan fails, and fails again after the repair. *)
Lemma repair_scan_of_file q w ro :
  q <> [] -> lookup q (root w) = Some (File ro) ->
  rmtree os q (_on_rm_error os) w
  = (Raised (fs_error "NotADirectoryError"),
     set_root w (alter_at q (fun c => Some (set_mode S_IWRITE c)) (root w))).
Proof.
  intros Hq L. cbn [os tree_os rmtree]. unfold fs_rmtree. rewrite L.
  unfold bind at 1. unfold _on_rm_error. unfold bind at 1. unfold try_except at 1.
  cbn [os tree_os chmod]. unfold fs_chmod. rewrite L. unfold try_except.
  cbn [os tree_os entry_op fs_entry_op root set_root].
  rewrite lookup_alter_same by exact Hq. rewrite L. reflexivity.
Qed.

(** The guard leaves the tree alone. *)
Lemma guard_keeps_root p s :
  exists s', _ensure_not_cwd os p s = (Ok tt, s') /\ root (world s') = root (world s).
Proof.
  unfold _ensure_not_cwd. unfold_py. cbn [os tree_os getcwd resolve gettempdir chdir].
  destruct (Path_eqb (fs_cwd (world s)) p); cbn.
  - unfold fs_chdir. destruct (is_dir _); cbn; eauto.
  - destruct (String.prefix _ _); cbn; [|eauto].
    unfold fs_chdir. destruct (is_dir _); cbn; eauto.
Qed.

(** The pre-clean changes nothing outside [.git]. *)
Lemma preclean_keeps_target p s ks :
  p <> [] -> wf (root (world s)) -> lookup p (root (world s)) = Some (Dir ks) ->
  exists s',
    remove_git_dir os p s = (Ok tt, s') /\
    wf (root (world s')) /\
    (exists ks', lookup p (root (world s')) = Some (Dir ks')) /\
    remove_at p (root (world s')) = remove_at p (root (world s)).
Proof.
  intros Hp Hw L.
  pose proof (remove_git_dir_cases os p s) as C. cbv zeta in C.
  assert (Hg : joinpath p ".git" <> []) by (unfold joinpath; destruct p; discriminate).
  assert (Below : forall f,
             (forall c c', wf c -> f c = Some c' -> wf c') ->
             wf (alter_at (joinpath p ".git") f (root (world s))) /\
             (exists ks', lookup p (alter_at (joinpath p ".git") f (root (world s)))
                          = Some (Dir ks')) /\
             remove_at p (alter_at (joinpath p ".git") f (root (world s)))
             = remove_at p (root (world s))).
  { intros f Hf. split; [apply wf_alter; assumption|]. split.
    - unfold joinpath. rewrite lookup_alter_below by discriminate. rewrite L.
      cbn. eauto.
    - unfold joinpath. apply remove_alter_below; [exact Hp|discriminate]. }
  destruct (path_exists os (joinpath p ".git") (world s)) eqn:E.
  - eexists. split; [exact C|]. cbn [world].
    change (path_exists os (joinpath p ".git") (world s))
      with (is_some (lookup (joinpath p ".git") (root (world s)))) in E.
    destruct (lookup (joinpath p ".git") (root (world s))) as [[ro|gk]|] eqn:G;
      [| |discriminate].
    + (* [.git] is a file: the scan fails, the handler clears the attribute
         and fails again *)
      rewrite (repair_scan_of_file _ Hg G). cbn [snd root set_root].
      apply Below. intros c c' Hc [= <-]. destruct c; [exact I|exact Hc].
    + rewrite (fs_rmtree_removes _ Hg G). cbn [snd root set_root].
      apply Below. intros c c' _ [=].
  - eexists. split; [exact C|]. cbn [world]. eauto.
Qed.

Lemma trash_path_keeps_root s :
  exists t s', make_trash_path os s = (Ok t, s') /\ t <> [] /\
               root (world s') = root (world s).
Proof.
  unfold make_trash_path. unfold_py. cbn [os tree_os gettempdir uuid4_hex Path_of].
  unfold fs_uuid4. cbn [world trace].
  destruct (fs_tokens (world s)); eexists _, _; (split; [reflexivity|]);
    (split; [unfold joinpath; destruct (parse _); discriminate|reflexivity]).
Qed.

(** Relocation either moves the directory as it is, or leaves
    everything in place. *)
Lemma relocate_keeps_tree p t s ks :
  p <> [] -> t <> [] -> wf (root (world s)) ->
  lookup p (root (world s)) = Some (Dir ks) ->
  exists moved s',
    relocate os p t s = (Ok moved, s') /\
    (if moved then t else p) <> [] /\
    lookup (if moved then t else p) (root (world s')) = Some (Dir ks) /\
    remove_at (if moved then t else p) (root (world s')) = remove_at p (root (world s)) /\
    lookup (if moved then t else p) (remove_at p (root (world s))) = None.
Proof.
  intros Hp Ht Hw L. rewrite relocate_cases.
  cbn [os tree_os rename move str_of]. unfold fs_rename, fs_move.
  destruct p as [|a p']; [contradiction|]. rewrite L.
  destruct (negb (is_prefix (a :: p') t) && can_place t (remove_at (a :: p') (root (world s))))
    eqn:C.
  - exists true. eexists. split; [reflexivity|]. cbn [world root set_root].
    apply andb_prop in C. destruct C as [_ C]. unfold can_place in C.
    destruct t as [|b t']; [discriminate|]. apply andb_prop in C. destruct C as [C1 C2].
    split; [discriminate|]. split; [|split].
    + apply lookup_insert; [discriminate|exact C2].
    + apply remove_insert; [discriminate|exact C2].
    + destruct (lookup (b :: t') (remove_at (a :: p') (root (world s))));
        [discriminate|reflexivity].
  - exists false. eexists. split; [reflexivity|]. cbn [world].
    split; [discriminate|]. split; [exact L|]. split; [reflexivity|].
    apply lookup_remove_same; [exact Hw|discriminate].
Qed.

Lemma py_range1_pos retries :
  (1 <= retries)%Z -> exists rest, py_range1 retries = 1%Z :: rest.
Proof.
  intros H. unfold py_range1.
  destruct (Z.to_nat retries) as [|n] eqn:E; [lia|].
  cbn. eauto.
Qed.

(** With at least one attempt, the first one removes the target. *)
Lemma delete_target_first_attempt path T retries delay ign s ks :
  (1 <= retries)%Z -> T <> [] ->
  lookup T (root (world s)) = Some (Dir ks) ->
  lookup T (remove_at T (root (world s))) = None ->
  exists s',
    delete_target os path T retries delay ign s = (Ok true, s') /\
    root (world s') = remove_at T (root (world s)).
Proof.
  intros Hr HT L Gone. unfold delete_target.
  destruct (py_range1_pos Hr) as (rest & ->). cbn [retry_loop].
  assert (E : path_exists os T (world s) = true).
  { cbn [os tree_os path_exists]. rewrite L. reflexivity. }
  unfold bind at 1. unfold bind at 1.
  rewrite (attempt_body_returns os T delay 1 s E (fs_rmtree_removes _ HT L)).
  cbn [os tree_os path_exists root set_root]. rewrite Gone. cbn.
  eexists. split; reflexivity.
Qed.

End TreeFacts.

(** C8.  In any environment the repair hook changes the mode of the
    failing entry to [S_IWRITE], whether or not that succeeds, and then
    calls the failed primitive on that entry once more: the hook returns
    what this single retry returns and raises what it raises.  In the
    filesystem tree, where a read-only file cannot be unlinked and nothing
    else stands in the way, the call on an existing directory - whatever
    files in it are read-only, at whatever depth - returns [True] for any
    number of retries from one up: the filesystem it leaves is the initial
    one with that directory taken out, nothing left in the trash. *)
Theorem C8_read_only_files_are_repaired :
  (forall W (os : OS W) func path w,
      _on_rm_error os func path w
      = entry_op os func path (snd (chmod os path S_IWRITE w))) /\
  (forall p w,
      p <> [] -> lookup p (root w) = Some (File true) ->
      with_onerror (_on_rm_error (tree_os "nt")) op_unlink p w
      = (Ok tt, set_root w (remove_at p (root w)))) /\
  (forall name path retries delay ign w ks,
      (1 <= retries)%Z ->
      parse path <> [] ->
      wf (root w) ->
      lookup (parse path) (root w) = Some (Dir ks) ->
      exists s,
        run (safe_remove_tree (tree_os name) path retries delay ign) w = (Ok true, s) /\
        root (world s) = remove_at (parse path) (root w) /\
        path_exists (tree_os name) (parse path) (world s) = false).
Proof.
  split; [|split].
  - intros W os func path w. unfold _on_rm_error, bind, try_except, ret, raise.
    destruct (chmod os path S_IWRITE w) as [[[]|e] w1]; cbn [snd];
      destruct (entry_op os func path w1) as [[[]|e'] w2]; reflexivity.
  - intros p w Hp L. unfold with_onerror. cbn [fs_entry_op]. unfold fs_unlink at 1.
    rewrite L. apply repair_unlinks_readonly; assumption.
  - intros name path retries delay ign w ks Hr Hp Hw L.
    set (os := tree_os name). set (p := parse path) in *.
    assert (E : path_exists os (Path_of os path) w = true).
    { cbn [os tree_os path_exists Path_of]. fold p. rewrite L. reflexivity. }
    unfold run. rewrite safe_remove_tree_phases by exact E.
    change (Path_of os path) with p. cbn [world trace app].
    set (s0 := mkSt w [EvExists p]).
    destruct (guard_keeps_root name p s0) as (s1 & G & R1).
    change (root (world s0)) with (root w) in R1.
    assert (Hw1 : wf (root (world s1))) by (rewrite R1; exact Hw).
    assert (L1 : lookup p (root (world s1)) = Some (Dir ks)) by (rewrite R1; exact L).
    destruct (preclean_keeps_target name s1 Hp Hw1 L1) as (s2 & Gi & Hw2 & [ks2 L2] & R2).
    destruct (trash_path_keeps_root name s2) as (t & s3 & Tr & Ht & R3).
    assert (Hw3 : wf (root (world s3))) by (rewrite R3; exact Hw2).
    assert (L3 : lookup p (root (world s3)) = Some (Dir ks2)) by (rewrite R3; exact L2).
    destruct (relocate_keeps_tree name s3 Hp Ht Hw3 L3)
      as (moved & s4 & Re & HT & L4 & R4 & Gone).
    rewrite <- R4 in Gone.
    destruct (delete_target_first_attempt name path delay ign s4 Hr HT L4 Gone)
      as (s5 & D & R5).
    exists s5.
    assert (Final : root (world s5) = remove_at p (root w)).
    { rewrite R5. etransitivity; [exact R4|]. rewrite R3, R2, R1. reflexivity. }
    split; [|split].
    + unfold choose_target. fold os.
      unfold bind at 1. unfold bind at 1. fold os in G. rewrite G.
      unfold bind at 1. fold os in Gi. rewrite Gi.
      unfold bind at 1. fold os in Tr. rewrite Tr.
      unfold bind at 1. fold os in Re. rewrite Re.
      unfold ret at 1. exact D.
    + exact Final.
    + cbn [os tree_os path_exists]. rewrite Final.
      rewrite lookup_remove_same by assumption. reflexivity.
Qed.

(** C8, on the sample tree. *)
Lemma C8_read_only_files_are_repaired_witness :
  exists s,
    run (safe_remove_tree (tree_os "nt") "build" 5 (1 # 2) true) sample = (Ok true, s) /\
    root (world s) = Dir [("tmp", Dir [])] /\
    path_exists (tree_os "nt") ["build"] (world s) = false.
Proof.
  assert (Hw : wf (root sample)).
  { cbn. repeat split; repeat constructor; cbn; intuition discriminate. }
  destruct (proj2 (proj2 C8_read_only_files_are_repaired)
              "nt" "build" 5%Z (1 # 2) true sample
              [("a.o", File true);
               ("obj", Dir [("b.o", File true); ("c.o", File false)]);
               (".git", Dir [("pack", File true)])]
              ltac:(lia) ltac:(discriminate) Hw eq_refl)
    as (s & R & F & G).
  exists s. split; [exact R|]. split; [rewrite F; reflexivity|exact G].
Defined.

(** * Further properties of the deletion routine *)

(** ** What a [True] result means *)

Section Outcome.

Variable W : Type.
Variable os : OS W.

Lemma attempt_body_true target delay a s s' :
  attempt_body os target delay a s = (Ok true, s') ->
  path_exists os target (world s') = false.
Proof.
  unfold attempt_body. unfold_py.
  destruct (path_exists os target (world s)) eqn:E; cbn.
  - destruct (rmtree os target (_on_rm_error os) (world s)) as [[[]|e] w1]; cbn.
    + intros [= H <-]. cbn. apply negb_true_iff. exact H.
    + destruct (sleep os (delay * inject_Z a) w1) as [[[]|e'] w2]; cbn; intros [=].
  - rewrite E. cbn. intros [= <-]. exact E.
Qed.

Lemma retry_loop_true target delay attempts s s' :
  retry_loop os target delay attempts s = (Ok true, s') ->
  path_exists os target (world s') = false.
Proof.
  revert s. induction attempts as [|a rest IH]; intros s; cbn [retry_loop].
  - intros [=].
  - unfold bind. destruct (attempt_body os target delay a s) as [[[]|e] s1] eqn:A.
    + intros [= <-]. eapply attempt_body_true; eauto.
    + apply IH.
    + intros [=].
Qed.

Lemma shell_fallback_true target s s' :
  shell_fallback os target s = (Ok (Some true), s') ->
  path_exists os target (world s') = false.
Proof.
  unfold shell_fallback. unfold bind at 1.
  destruct (String.eqb (os_name os) "posix").
  - unfold py_exists at 1. destruct (path_exists os target (world s)); [|intros [=]].
    unfold_py.
    destruct (subprocess_run os ["rm"; "-rf"; str_of os target] (world s))
      as [[st|e] w1]; cbn; [|intros [=]].
    destruct (Z.eqb st 0); cbn; [|intros [=]].
    intros [= H <-]. cbn. apply negb_true_iff. exact H.
  - unfold ret at 1. intros [=].
Qed.

Lemma delete_target_true path target retries delay ign s s' :
  delete_target os path target retries delay ign s = (Ok true, s') ->
  path_exists os target (world s') = false.
Proof.
  unfold delete_target, bind.
  destruct (retry_loop os target delay (py_range1 retries) s) as [[[]|e] s1] eqn:L.
  - intros [= <-]. eapply retry_loop_true; eauto.
  - destruct (shell_fallback os target s1) as [[[[]|]|e] s2] eqn:F.
    + intros [= <-]. eapply shell_fallback_true; eauto.
    + intros [=].
    + unfold exhausted. destruct ign; intros [=].
    + intros [=].
  - intros [=].
Qed.

(** X1.  A [True] result is never a guess: either the path did not exist when
    the call began, and nothing was done, or the deletion target does not
    exist when the call returns. *)
Theorem true_result_means_gone path retries delay ign w s :
  run (safe_remove_tree os path retries delay ign) w = (Ok true, s) ->
  (path_exists os (Path_of os path) w = false /\ world s = w) \/
  (exists target s1,
      choose_target os (Path_of os path) (mkSt w [EvExists (Path_of os path)])
      = (Ok target, s1) /\
      path_exists os target (world s) = false).
Proof.
  intros H. unfold run in H.
  destruct (path_exists os (Path_of os path) w) eqn:E.
  - right. rewrite safe_remove_tree_phases in H by exact E. cbn [world trace app] in H.
    unfold bind in H.
    destruct (choose_target os (Path_of os path) _) as [[target|e] s1] eqn:C; [|discriminate].
    exists target, s1. split; [reflexivity|]. eapply delete_target_true; eauto.
  - left. rewrite safe_remove_tree_missing in H by exact E. inversion H. auto.
Qed.

End Outcome.

(** For the directory whose third removal succeeds. *)
Lemma true_result_means_gone_witness :
  path_exists windows ["/"; "tmp"; "build-trash-a1"]
    (world (snd (run (safe_remove_tree windows "build" 5 (1 # 2) true)
                     (base [stuck; stuck; clean])))) = false.
Proof.
  destruct (@true_result_means_gone SWorld windows "build" 5%Z (1 # 2) true
              (base [stuck; stuck; clean])
              (snd (run (safe_remove_tree windows "build" 5 (1 # 2) true)
                        (base [stuck; stuck; clean])))
              ltac:(vm_compute; reflexivity)) as [[H _]|(target & s1 & C & G)].
  - vm_compute in H. discriminate H.
  - vm_compute in C. injection C as <- _. exact G.
Defined.

(** ** The retry budget and the backoff schedule *)

Section Budget.

Variable W : Type.
Variable os : OS W.

Lemma subseq_nil_l A (l : list A) : subseq [] l.
Proof. induction l; constructor; assumption. Qed.

Lemma rmtree_calls_none evs :
  Forall (fun ev => match ev with EvRmtree _ => False | _ => True end) evs ->
  rmtree_calls evs = [].
Proof.
  induction 1 as [|ev evs H _ IH]; [reflexivity|].
  change (ev :: evs) with ([ev] ++ evs). rewrite rmtree_calls_app, IH.
  destruct ev; cbn in *; try reflexivity. contradiction.
Qed.

(** The three shapes of one pass through the loop body. *)
Lemma attempt_body_shape target delay a s r s' :
  attempt_body os target delay a s = (r, s') ->
  trace s' = trace s ++ [EvExists target; EvExists target] \/
  trace s' = trace s ++ [EvExists target; EvRmtree target; EvExists target] \/
  (trace s' = trace s ++ [EvExists target; EvRmtree target;
                          EvSleep (delay * inject_Z a)] /\
   r <> Ok true).
Proof.
  unfold attempt_body. unfold_py.
  destruct (path_exists os target (world s)) eqn:E; cbn.
  - destruct (rmtree os target (_on_rm_error os) (world s)) as [[[]|e] w1]; cbn.
    + intros [= <- <-]. right. left. cbn. rewrite <- !app_assoc. reflexivity.
    + destruct (sleep os (delay * inject_Z a) w1) as [[[]|e'] w2]; cbn;
        intros [= <- <-]; right; right; cbn; rewrite <- !app_assoc;
        (split; [reflexivity|discriminate]).
  - intros [= <- <-]. left. cbn. rewrite <- !app_assoc. reflexivity.
Qed.

Lemma retry_loop_budget target delay attempts :
  forall s r s',
    retry_loop os target delay attempts s = (r, s') ->
    exists evs,
      trace s' = trace s ++ evs /\
      (List.length (rmtree_calls evs) <= List.length attempts)%nat /\
      (List.length (sleeps evs) <= List.length (rmtree_calls evs))%nat /\
      subseq (sleeps evs) (backoff delay attempts) /\
      Forall (fun ev => is_subprocess ev = false) evs.
Proof.
  induction attempts as [|a rest IH]; intros s r s'; cbn [retry_loop].
  - intros [= <- <-]. exists []. rewrite app_nil_r. cbn. repeat split; auto. constructor.
  - unfold bind. destruct (attempt_body os target delay a s) as [r1 s1] eqn:A.
    pose proof (attempt_body_shape _ _ _ _ A) as Sh.
    assert (Stop : (r, s') = (r1, s1) ->
              exists evs,
                trace s' = trace s ++ evs /\
                (List.length (rmtree_calls evs) <= List.length (a :: rest))%nat /\
                (List.length (sleeps evs) <= List.length (rmtree_calls evs))%nat /\
                subseq (sleeps evs) (backoff delay (a :: rest)) /\
                Forall (fun ev => is_subprocess ev = false) evs).
    { intros [= -> ->].
      destruct Sh as [T|[T|[T _]]]; eexists; (split; [exact T|]); cbn;
        repeat split; try lia; repeat constructor; apply subseq_nil_l. }
    destruct r1 as [[]|e].
    + intros H. apply Stop. symmetry. exact H.
    + intros H. destruct (IH _ _ _ H) as (evs & T & B1 & B2 & B3 & B4).
      destruct Sh as [T1|[T1|[T1 _]]]; eexists; (split; [rewrite T, T1, <- app_assoc; reflexivity|]);
        rewrite rmtree_calls_app, sleeps_app; cbn [rmtree_calls sleeps flat_map app List.length];
        repeat split; try lia;
        try (apply subseq_skip; exact B3);
        try (apply subseq_keep; exact B3);
        try (repeat (constructor; [reflexivity|]); exact B4).
    + intros H. apply Stop. symmetry. exact H.
Qed.

Lemma py_range1_length retries : List.length (py_range1 retries) = Z.to_nat retries.
Proof. unfold py_range1. rewrite length_map, length_seq. reflexivity. Qed.


End Budget.


(** ** Persistent failure and the fallback *)

Section Failure.

Variable W : Type.
Variable os : OS W.

(** Every attempt fails and leaves the target in place. *)
Lemma retry_loop_all_fail (I : W -> Prop) target delay :
  (forall w, I w -> path_exists os target w = true) ->
  (forall w, I w -> exists e w',
        rmtree os target (_on_rm_error os) w = (Raised e, w') /\ I w') ->
  (forall d w, I w -> exists w', sleep os d w = (Ok tt, w') /\ I w') ->
  forall attempts s,
    I (world s) ->
    exists s' evs,
      retry_loop os target delay attempts s = (Ok false, s') /\
      I (world s') /\
      trace s' = trace s ++ evs /\
      rmtree_calls evs = repeat target (List.length attempts) /\
      sleeps evs = backoff delay attempts /\
      Forall (fun ev => is_subprocess ev = false) evs.
Proof.
  intros H1 H2 H3. induction attempts as [|a rest IH]; intros s Hs.
  - exists s, []. cbn. rewrite app_nil_r. repeat split; auto.
  - destruct (H2 _ Hs) as (e & w1 & R & I1).
    destruct (H3 (delay * inject_Z a) _ I1) as (w2 & Sl & I2).
    pose proof (attempt_body_raises os target delay a s (H1 _ Hs) R Sl) as A.
    destruct (IH (mkSt w2 (((trace s ++ [EvExists target]) ++ [EvRmtree target])
                             ++ [EvSleep (delay * inject_Z a)])) I2)
      as (s' & evs & L & I' & T & Rc & Sc & Fc).
    exists s', ([EvExists target; EvRmtree target; EvSleep (delay * inject_Z a)] ++ evs).
    split; [|split; [exact I'|split; [|split; [|split]]]].
    + cbn [retry_loop]. unfold bind. rewrite A. exact L.
    + rewrite T. cbn [trace]. rewrite <- !app_assoc. reflexivity.
    + rewrite rmtree_calls_app, Rc. reflexivity.
    + rewrite sleeps_app, Sc. reflexivity.
    + repeat (constructor; [reflexivity|]). exact Fc.
Qed.

(** X3.  Without the fallback, a target that every attempt leaves in place
    costs exactly [retries] removals of the target, with the sleeps
    [delay * 1, ..., delay * retries] in between and after; then the
    call returns [False], or raises the error naming the original path
    when [ignore_errors] is false. *)
Theorem persistent_failure_exhausts_retries
  (I : W -> Prop) path target retries delay ign s :
  String.eqb (os_name os) "posix" = false ->
  (forall w, I w -> path_exists os target w = true) ->
  (forall w, I w -> exists e w',
        rmtree os target (_on_rm_error os) w = (Raised e, w') /\ I w') ->
  (forall d w, I w -> exists w', sleep os d w = (Ok tt, w') /\ I w') ->
  I (world s) ->
  exists s' evs,
    delete_target os path target retries delay ign s
    = (if ign then Ok false else Raised (could_not_delete path), s') /\
    trace s' = trace s ++ evs /\
    rmtree_calls evs = repeat target (Z.to_nat retries) /\
    sleeps evs = backoff delay (py_range1 retries) /\
    path_exists os target (world s') = true.
Proof.
  intros Hn H1 H2 H3 Hs.
  destruct (retry_loop_all_fail I target delay H1 H2 H3 (py_range1 retries) s Hs)
    as (s' & evs & L & I' & T & Rc & Sc & _).
  rewrite py_range1_length in Rc.
  exists s', evs. split; [|repeat split; auto].
  unfold delete_target. unfold bind at 1. rewrite L.
  unfold shell_fallback. rewrite Hn. unfold bind, ret, exhausted, raise, could_not_delete.
  destruct ign; reflexivity.
Qed.

(** The fallback, once the loop has given up on POSIX with the target
    still there. *)
Lemma shell_fallback_posix target s :
  String.eqb (os_name os) "posix" = true ->
  path_exists os target (world s) = true ->
  shell_fallback os target s
  = let args := ["rm"; "-rf"; str_of os target] in
    let t := (trace s ++ [EvExists target]) ++ [EvSubprocess args] in
    match subprocess_run os args (world s) with
    | (Ok st, w1) =>
        if Z.eqb st 0
        then (Ok (Some (negb (path_exists os target w1))),
              mkSt w1 (t ++ [EvExists target]))
        else (Ok None, mkSt w1 t)
    | (Raised _, w1) => (Ok None, mkSt w1 t)
    end.
Proof.
  intros Hp E. unfold shell_fallback. rewrite Hp. unfold_py. rewrite E. cbn.
  destruct (subprocess_run os ["rm"; "-rf"; str_of os target] (world s))
    as [[st|e] w1]; cbn; [|reflexivity].
  destruct (Z.eqb st 0); reflexivity.
Qed.

(** X5.  On POSIX, when every attempt has failed and the target is still
    there, [rm -rf] is run on the target; if it exits with status 0 and
    the target is gone, the call returns [True], whatever
    [ignore_errors]. *)
Theorem fallback_rescues_on_posix path target retries delay ign s s1 w2 :
  String.eqb (os_name os) "posix" = true ->
  retry_loop os target delay (py_range1 retries) s = (Ok false, s1) ->
  path_exists os target (world s1) = true ->
  subprocess_run os ["rm"; "-rf"; str_of os target] (world s1) = (Ok 0%Z, w2) ->
  path_exists os target w2 = false ->
  delete_target os path target retries delay ign s
  = (Ok true,
     mkSt w2 (trace s1 ++ [EvExists target;
                           EvSubprocess ["rm"; "-rf"; str_of os target];
                           EvExists target])).
Proof.
  intros Hp L E R G. unfold delete_target. unfold bind at 1. rewrite L.
  unfold bind at 1. rewrite (shell_fallback_posix _ _ Hp E). cbv zeta. rewrite R.
  cbn [Z.eqb]. rewrite G. unfold ret. cbn [negb]. rewrite <- !app_assoc. reflexivity.
Qed.

(** X6.  A fallback that exits with a non-zero status, or cannot be run, is a
    failure even if it removed the target: the call gives up, with
    [False] or with the error naming the original path. *)
Theorem failed_fallback_gives_up path target retries delay ign s s1 r w2 :
  String.eqb (os_name os) "posix" = true ->
  retry_loop os target delay (py_range1 retries) s = (Ok false, s1) ->
  path_exists os target (world s1) = true ->
  subprocess_run os ["rm"; "-rf"; str_of os target] (world s1) = (r, w2) ->
  match r with Ok st => st <> 0%Z | Raised _ => True end ->
  delete_target os path target retries delay ign s
  = (if ign then Ok false else Raised (could_not_delete path),
     mkSt w2 (trace s1 ++ [EvExists target;
                           EvSubprocess ["rm"; "-rf"; str_of os target]])).
Proof.
  intros Hp L E R Hr. unfold delete_target. unfold bind at 1. rewrite L.
  unfold bind at 1. rewrite (shell_fallback_posix _ _ Hp E). cbv zeta. rewrite R.
  destruct r as [st|e].
  - apply Z.eqb_neq in Hr. rewrite Hr. unfold exhausted, ret, raise, could_not_delete.
    rewrite <- !app_assoc. destruct ign; reflexivity.
  - unfold exhausted, ret, raise, could_not_delete.
    rewrite <- !app_assoc. destruct ign; reflexivity.
Qed.

(** Off POSIX no subprocess is ever started. *)
Lemma delete_target_no_subprocess path target retries delay ign :
  String.eqb (os_name os) "posix" = false ->
  emits (fun ev => is_subprocess ev = false)
        (delete_target os path target retries delay ign).
Proof.
  intros Hn. unfold delete_target.
  apply emits_bind.
  - intros s r s' H. destruct (retry_loop_budget os _ _ _ _ H) as (evs & T & _ & _ & _ & F).
    exists evs. auto.
  - intros []; [apply emits_ret|].
    apply emits_bind.
    + intros s r s' H. unfold shell_fallback in H. rewrite Hn in H.
      unfold bind, ret in H. inversion H; subst. exists []. rewrite app_nil_r. auto.
    + intros [b|]; [apply emits_ret|]. unfold exhausted. destruct ign; emits_step.
Qed.

(** X4.  On a platform whose [os.name] is not ["posix"], a call never starts
    a subprocess, whatever happens to the removals. *)
Theorem no_subprocess_off_posix path retries delay ign w r s :
  String.eqb (os_name os) "posix" = false ->
  run (safe_remove_tree os path retries delay ign) w = (r, s) ->
  Forall (fun ev => is_subprocess ev = false) (trace s).
Proof.
  intros Hn H.
  assert (E : emits (fun ev => is_subprocess ev = false)
                    (safe_remove_tree os path retries delay ign)).
  { unfold safe_remove_tree.
    apply emits_bind; [apply emits_exists; reflexivity|]. intros e.
    apply emits_if; [apply emits_ret|].
    unfold _ensure_not_cwd, remove_git_dir, make_trash_path, relocate.
    repeat (first [ apply delete_target_no_subprocess; exact Hn
                  | emits_step ]); reflexivity. }
  destruct (E _ _ _ H) as (evs & T & F). rewrite T. exact F.
Qed.

End Failure.

(** A regular file handed to the routine on a platform without the
    fallback: every scan of it fails, before and after the repair. *)
Lemma persistent_failure_exhausts_retries_witness :
  let w := mkFs (Dir [("a.o", File true); ("tmp", Dir [])]) ["tmp"] "tmp" [] in
  exists s' evs,
    delete_target (tree_os "nt") "a.o" ["a.o"] 3 (1 # 2) false (mkSt w [])
    = (Raised (could_not_delete "a.o"), s') /\
    trace s' = [] ++ evs /\
    rmtree_calls evs = [["a.o"]; ["a.o"]; ["a.o"]] /\
    sleeps evs = [1 # 2; 2 # 2; 3 # 2].
Proof.
  intros w.
  destruct (@persistent_failure_exhausts_retries FsWorld (tree_os "nt")
              (fun w => exists ro, lookup ["a.o"] (root w) = Some (File ro))
              "a.o" ["a.o"] 3%Z (1 # 2) false (mkSt w []) eq_refl)
    as (s' & evs & D & T & R & S & _).
  - intros w0 [ro L]. cbn [tree_os path_exists]. rewrite L. reflexivity.
  - intros w0 [ro L]. eexists _, _. split.
    + apply (@repair_scan_of_file "nt" ["a.o"] w0 ro); [discriminate|exact L].
    + cbn [root set_root]. rewrite lookup_alter_same by discriminate. rewrite L.
      cbn. eauto.
  - intros d w0 Hw0. exists w0. split; [reflexivity|exact Hw0].
  - exists true. reflexivity.
  - exists s', evs. split; [exact D|]. split; [exact T|]. split; [exact R|exact S].
Defined.

(** Two failed attempts, then [rm -rf] removes the tree and exits with
    status 0. *)
Lemma fallback_rescues_on_posix_witness :
  let w := mkSWorld [["/"; "tmp"]; ["build"]; ["build"; "obj"]] (Some ["/"; "tmp"])
                    "/tmp" [] true true [stuck; stuck] [(0%Z, true)] in
  fst (delete_target posix "build" ["build"] 2 (1 # 2) false (mkSt w [])) = Ok true.
Proof.
  intros w.
  set (X := retry_loop posix ["build"] (1 # 2) (py_range1 2) (mkSt w [])).
  assert (L : X = (Ok false, snd X)) by (vm_compute; reflexivity).
  rewrite (@fallback_rescues_on_posix SWorld posix "build" ["build"] 2%Z (1 # 2) false
             (mkSt w []) (snd X)
             (snd (subprocess_run posix ["rm"; "-rf"; "build"] (world (snd X))))
             eq_refl L).
  - reflexivity.
  - vm_compute. reflexivity.
  - vm_compute. reflexivity.
  - vm_compute. reflexivity.
Defined.

(** Two failed attempts, then [rm -rf] removes the tree but exits with
    status 1. *)
Lemma failed_fallback_gives_up_witness :
  let w := mkSWorld [["/"; "tmp"]; ["build"]; ["build"; "obj"]] (Some ["/"; "tmp"])
                    "/tmp" [] true true [stuck; stuck] [(1%Z, true)] in
  fst (delete_target posix "build" ["build"] 2 (1 # 2) true (mkSt w [])) = Ok false /\
  path_exists posix ["build"]
    (world (snd (delete_target posix "build" ["build"] 2 (1 # 2) true (mkSt w []))))
  = false.
Proof.
  intros w.
  set (X := retry_loop posix ["build"] (1 # 2) (py_range1 2) (mkSt w [])).
  assert (L : X = (Ok false, snd X)) by (vm_compute; reflexivity).
  rewrite (@failed_fallback_gives_up SWorld posix "build" ["build"] 2%Z (1 # 2) true
             (mkSt w []) (snd X) (Ok 1%Z)
             (snd (subprocess_run posix ["rm"; "-rf"; "build"] (world (snd X))))
             eq_refl L).
  - split; [reflexivity|vm_compute; reflexivity].
  - vm_compute. reflexivity.
  - vm_compute. reflexivity.
  - discriminate.
Defined.

(** Five failed attempts on a platform that is not POSIX. *)
Lemma no_subprocess_off_posix_witness :
  Forall (fun ev => is_subprocess ev = false)
         (trace (snd (run (safe_remove_tree windows "build" 5 (1 # 2) true)
                          (base [stuck; stuck; stuck; stuck; stuck])))).
Proof.
  exact (@no_subprocess_off_posix SWorld windows "build" 5%Z (1 # 2) true
           (base [stuck; stuck; stuck; stuck; stuck]) _ _ eq_refl
           (surjective_pairing _)).
Defined.

(** ** What can be raised *)

Section Raises.

Variable W : Type.
Variable os : OS W.
Variable Q : exn -> Prop.

Lemma raises_only_ret S A (a : A) : raises_only Q (ret (S := S) a).
Proof. intros s e s' H. discriminate H. Qed.

Lemma raises_only_raise S A e : Q e -> raises_only Q (raise (S := S) (A := A) e).
Proof. intros He s e' s' H. inversion H; subst. exact He. Qed.

Lemma raises_only_bind S A B (m : M S A) (k : A -> M S B) :
  raises_only Q m -> (forall a, raises_only Q (k a)) -> raises_only Q (bind m k).
Proof.
  intros Hm Hk s e s' H. unfold bind in H.
  destruct (m s) as [[a|e1] s1] eqn:E.
  - eapply Hk; eauto.
  - inversion H; subst. eapply Hm; eauto.
Qed.

(** Whatever the body of a [try] raises, only the handler counts. *)
Lemma raises_only_try S A (m : M S A) (h : exn -> M S A) :
  (forall e, raises_only Q (h e)) -> raises_only Q (try_except m h).
Proof.
  intros Hh s e s' H. unfold try_except in H.
  destruct (m s) as [[a|e1] s1] eqn:E; [discriminate H|].
  eapply Hh; eauto.
Qed.

Lemma raises_only_call A ev (m : M W A) : returns m -> raises_only Q (call ev m).
Proof.
  intros Hm s e s' H. unfold call in H.
  destruct (Hm (world s)) as (a & w' & E). rewrite E in H. discriminate H.
Qed.

Lemma raises_only_exists p : raises_only Q (py_exists os p).
Proof. intros s e s' H. discriminate H. Qed.

Lemma raises_only_if S A (b : bool) (m1 m2 : M S A) :
  raises_only Q m1 -> raises_only Q m2 -> raises_only Q (if b then m1 else m2).
Proof. destruct b; auto. Qed.

End Raises.

Ltac raises_step :=
  first [ apply raises_only_bind; [|intros ?]
        | apply raises_only_try; intros ?
        | apply raises_only_if
        | apply raises_only_ret
        | apply raises_only_exists
        | apply raises_only_call ].

Section Quiet.

Variable W : Type.
Variable os : OS W.
Hypothesis Hq : quiet os.

Lemma retry_loop_raises_nothing Q target delay attempts :
  raises_only Q (retry_loop os target delay attempts).
Proof.
  destruct Hq as (_ & _ & _ & _ & Hs).
  induction attempts as [|a rest IH]; cbn [retry_loop].
  - apply raises_only_ret.
  - apply raises_only_bind.
    + unfold attempt_body. repeat raises_step. apply Hs.
    + intros []; [apply raises_only_ret|exact IH].
Qed.

(** In a quiet environment the only exception a call can raise is the
    one of its last line, and only when [ignore_errors] is false. *)
Lemma safe_remove_tree_raises path retries delay ign :
  raises_only (fun e => ign = false /\ e = could_not_delete path)
              (safe_remove_tree os path retries delay ign).
Proof.
  destruct Hq as (Hc & Hr & Ht & Hu & Hs).
  unfold safe_remove_tree.
  apply raises_only_bind; [apply raises_only_exists|]. intros e.
  apply raises_only_if; [apply raises_only_ret|].
  apply raises_only_bind.
  { unfold _ensure_not_cwd. repeat raises_step; auto. }
  intros _. apply raises_only_bind.
  { unfold remove_git_dir. repeat raises_step. }
  intros _. apply raises_only_bind.
  { unfold make_trash_path. repeat raises_step; auto. }
  intros trash. apply raises_only_bind.
  { unfold relocate. repeat raises_step. }
  intros moved. unfold delete_target.
  apply raises_only_bind; [apply retry_loop_raises_nothing|].
  intros []; [apply raises_only_ret|].
  apply raises_only_bind.
  { unfold shell_fallback. repeat raises_step. }
  intros [b|]; [apply raises_only_ret|].
  unfold exhausted. destruct ign; [apply raises_only_ret|].
  apply raises_only_raise. split; reflexivity.
Qed.

Lemma remove_each_returns dirs :
  forall s, exists s', remove_each os dirs s = (Ok tt, s').
Proof.
  induction dirs as [|d rest IH]; intros s; cbn [remove_each].
  - eexists. reflexivity.
  - unfold bind.
    destruct (safe_remove_tree_default os d s) as [[b|e] s1] eqn:E.
    + apply IH.
    + destruct (safe_remove_tree_raises _ _ _ _ _ E) as [F _]. discriminate F.
Qed.

End Quiet.




Lemma tree_os_quiet name : quiet (tree_os name).
Proof.
  unfold quiet, returns. cbn [tree_os getcwd resolve gettempdir uuid4_hex sleep].
  repeat split; intros; try (eexists _, _; reflexivity).
  unfold fs_uuid4. destruct (fs_tokens w); eexists _, _; reflexivity.
Qed.




(** ** The walk and the guard, further *)

(** X10.  A deletion that raises ends the walk: the build directories after it
    are not attempted, and the walk raises what the deletion raised. *)
Theorem cleanup_stops_at_first_raise
  W (os : OS W) (r : BuildResult) before d after s s1 e s2 :
  build_dirs r = before ++ d :: after ->
  remove_each os before s = (Ok tt, s1) ->
  safe_remove_tree_default os d s1 = (Raised e, s2) ->
  cleanup_build_files os (Some r) s = (Raised e, s2).
Proof.
  intros B R D. cbn [cleanup_build_files]. rewrite cleanup_result_walk, B.
  rewrite remove_each_app. unfold bind at 1. rewrite R.
  cbn [remove_each]. unfold bind. rewrite D. reflexivity.
Qed.

(** The tree of the example when the working directory of the process
    is gone: the deletion of ["A"] raises and ["B"] is left alone. *)
Lemma cleanup_stops_at_first_raise_witness :
  let w := mkSWorld [["/"; "tmp"]; ["A"]; ["B"]] None "/tmp" [] true true [] [] in
  fst (cleanup_build_files windows (Some example_tree) (mkSt w []))
  = Raised (PyExc "FileNotFoundError" "getcwd") /\
  path_exists windows ["B"]
    (world (snd (cleanup_build_files windows (Some example_tree) (mkSt w [])))) = true.
Proof.
  intros w.
  rewrite (@cleanup_stops_at_first_raise SWorld windows example_tree [] "A" ["B"]
             (mkSt w []) (mkSt w [])
             (PyExc "FileNotFoundError" "getcwd")
             (snd (safe_remove_tree_default windows "A" (mkSt w [])))
             eq_refl eq_refl ltac:(vm_compute; reflexivity)).
  split; [reflexivity|vm_compute; reflexivity].
Defined.

(** X11.  Once the working directory of the process has been read and
    resolved, the guard returns normally whatever happens next: a failure
    to resolve the target, to find the temporary directory or to change
    into it is swallowed. *)
Theorem guard_failures_inside_try_are_swallowed
  W (os : OS W) path s c w1 cwd w2 :
  getcwd os (world s) = (Ok c, w1) ->
  resolve os c w1 = (Ok cwd, w2) ->
  exists s', _ensure_not_cwd os path s = (Ok tt, s').
Proof. intros G R. eapply guard_swallows_after_cwd; eauto. Qed.

(** The process stands in the directory to delete and there is no
    temporary directory to go to: the change of directory fails and the
    guard returns all the same. *)
Lemma guard_failures_inside_try_are_swallowed_witness :
  let w := mkSWorld [["build"]] (Some ["build"]) "/tmp" [] true true [] [] in
  exists s',
    _ensure_not_cwd windows ["build"] (mkSt w []) = (Ok tt, s') /\
    In (EvChdir ["/"; "tmp"]) (trace s') /\
    cwd (world s') = Some ["build"].
Proof.
  intros w.
  destruct (@guard_failures_inside_try_are_swallowed SWorld windows ["build"] (mkSt w [])
              ["build"] w ["build"] w eq_refl eq_refl) as (s' & G).
  exists s'. split; [exact G|].
  vm_compute in G. inversion G; subst. cbn. tauto.
Defined.

(** * The callers *)

Section CallerFacts.

Variable W : Type.
Variable os : OS W.
Variable cfg : Config.
Variable env : BuildEnv W.

Lemma bind_ret_tt S (m : M S unit) s : bind m (fun _ => ret tt) s = m s.
Proof.
  unfold bind, ret. destruct (m s) as [[[]|e] s1]; reflexivity.
Qed.

(** [main] goes through its plan. *)
Lemma main_follows_plan s :
  main os cfg env s
  = (lift (mkpath env (prebuilt_bin_dir cfg)) ;;
     call (EvChdir (Path_of os (prebuilt_bin_dir cfg)))
          (chdir os (Path_of os (prebuilt_bin_dir cfg))) ;;
     build_each os cfg env (build_plan cfg env)) s.
Proof.
  unfold main, build_plan.
  apply bind_ext. intros _ s1. apply bind_ext. intros _ s2. revert s2.
  destruct (with_swiftshader cfg), (String.eqb (sys_platform env) "win32"),
    (String.eqb (sys_platform env) "linux"), (with_lua_debugger cfg);
    cbn [app build_each]; intros s2;
    repeat first
      [ apply bind_ext; intros _ ?
      | lazymatch goal with
        | |- bind (ret tt) ?k ?s = ?rhs => change (k tt s = rhs); cbv beta
        end
      | reflexivity
      | (symmetry; apply bind_ret_tt) ].
Qed.

Lemma build_library_skip name args s :
  clean_deps_build_files cfg = true ->
  path_is_dir env (Path_of os (get_library_root_dir env name)) (world s) = true ->
  build_library os cfg env name args s = (Ok tt, s).
Proof.
  intros C D. unfold build_library. rewrite C, D. reflexivity.
Qed.

Lemma build_library_plain name args s :
  clean_deps_build_files cfg = false ->
  build_library os cfg env name args s
  = match build_third_party_library env name args (world s) with
    | (Ok _, w1) => (Ok tt, mkSt w1 (trace s))
    | (Raised e, w1) => (Raised e, mkSt w1 (trace s))
    end.
Proof.
  intros C. unfold build_library. rewrite C. cbn [negb orb].
  unfold bind, lift, ret.
  destruct (build_third_party_library env name args (world s)) as [[res|e] w1];
    reflexivity.
Qed.

(** X14.  With [clean_deps_build_files] set, a library that is not yet built
    is built and then cleaned: the default deletions of the truthy build
    directories of the result it reported, in traversal order, and
    nothing else.  A build that raises is not followed by any deletion,
    and a build that reports [None] neither. *)
Theorem fresh_build_is_cleaned name args s :
  clean_deps_build_files cfg = true ->
  path_is_dir env (Path_of os (get_library_root_dir env name)) (world s) = false ->
  build_library os cfg env name args s
  = match build_third_party_library env name args (world s) with
    | (Ok (Some r), w1) => remove_each os (build_dirs r) (mkSt w1 (trace s))
    | (Ok None, w1) => (Ok tt, mkSt w1 (trace s))
    | (Raised e, w1) => (Raised e, mkSt w1 (trace s))
    end.
Proof.
  intros C D. unfold build_library. rewrite C, D. cbn [negb orb].
  unfold bind at 1. unfold lift.
  destruct (build_third_party_library env name args (world s)) as [[[r|]|e] w1];
    try reflexivity.
  cbn [cleanup_build_files]. apply cleanup_result_walk.
Qed.

Lemma build_each_plain l :
  clean_deps_build_files cfg = false ->
  forall s r s', build_each os cfg env l s = (r, s') -> trace s' = trace s.
Proof.
  intros C. induction l as [|[name args] l IH]; intros s r s'; cbn [build_each].
  - intros [= <- <-]. reflexivity.
  - unfold bind. rewrite (build_library_plain _ _ _ C).
    destruct (build_third_party_library env name args (world s)) as [[res|e] w1].
    + intros H. apply IH in H. exact H.
    + intros [= <- <-]. reflexivity.
Qed.

(** X15.  Without [clean_deps_build_files] a run of [main] deletes nothing:
    of all the calls the trace follows it makes one, the [os.chdir] into
    the directory of the prebuilt binaries - and not even that one when
    [mkpath] raises. *)
Theorem main_without_flag_deletes_nothing s r s' :
  clean_deps_build_files cfg = false ->
  main os cfg env s = (r, s') ->
  trace s' = trace s \/
  trace s' = trace s ++ [EvChdir (Path_of os (prebuilt_bin_dir cfg))].
Proof.
  intros C. rewrite main_follows_plan. unfold bind at 1. unfold lift.
  destruct (mkpath env (prebuilt_bin_dir cfg) (world s)) as [[[]|e] w1].
  - unfold bind. unfold call. cbn [world trace].
    destruct (chdir os (Path_of os (prebuilt_bin_dir cfg)) w1) as [[[]|e] w2].
    + intros H. right. apply (build_each_plain _ C) in H. exact H.
    + intros [= <- <-]. right. reflexivity.
  - intros [= <- <-]. left. reflexivity.
Qed.

Lemma build_each_skip l :
  clean_deps_build_files cfg = true ->
  (forall name w,
      path_is_dir env (Path_of os (get_library_root_dir env name)) w = true) ->
  forall s, build_each os cfg env l s = (Ok tt, s).
Proof.
  intros C D. induction l as [|[name args] l IH]; intros s; cbn [build_each].
  - reflexivity.
  - unfold bind. rewrite (build_library_skip _ _ _ C (D _ _)). apply IH.
Qed.

(** X16.  With [clean_deps_build_files] set and every library already built,
    a run of [main] builds nothing and deletes nothing: it ends where
    [mkpath] and [os.chdir] left it. *)
Theorem main_skips_built_libraries s :
  clean_deps_build_files cfg = true ->
  (forall name w,
      path_is_dir env (Path_of os (get_library_root_dir env name)) w = true) ->
  main os cfg env s
  = (lift (mkpath env (prebuilt_bin_dir cfg)) ;;
     call (EvChdir (Path_of os (prebuilt_bin_dir cfg)))
          (chdir os (Path_of os (prebuilt_bin_dir cfg)))) s.
Proof.
  intros C D. rewrite main_follows_plan.
  apply bind_ext. intros _ s1.
  unfold bind.
  destruct (call _ _ s1) as [[[]|e] s2]; [|reflexivity].
  apply build_each_skip; assumption.
Qed.

(** X17.  [main] asks for the libraries of its plan in order, each of them
    once at most whatever the platform and the configuration, and stops
    at the first build or deletion that raises.  [sevenzip] and
    [freetype] are in the plan exactly on [win32], [sdbus_cpp] exactly on
    [linux] and [wintoast] exactly elsewhere. *)
Theorem main_builds_each_library_once :
  (forall s,
      main os cfg env s
      = (lift (mkpath env (prebuilt_bin_dir cfg)) ;;
         call (EvChdir (Path_of os (prebuilt_bin_dir cfg)))
              (chdir os (Path_of os (prebuilt_bin_dir cfg))) ;;
         build_each os cfg env (build_plan cfg env)) s) /\
  NoDup (map fst (build_plan cfg env)) /\
  (In "sevenzip" (map fst (build_plan cfg env))
   <-> String.eqb (sys_platform env) "win32" = true) /\
  (In "freetype" (map fst (build_plan cfg env))
   <-> String.eqb (sys_platform env) "win32" = true) /\
  (In "sdbus_cpp" (map fst (build_plan cfg env))
   <-> String.eqb (sys_platform env) "linux" = true) /\
  (In "wintoast" (map fst (build_plan cfg env))
   <-> String.eqb (sys_platform env) "linux" = false).
Proof.
  split; [exact main_follows_plan|].
  unfold build_plan.
  destruct (with_swiftshader cfg), (String.eqb (sys_platform env) "win32"),
    (String.eqb (sys_platform env) "linux"), (with_lua_debugger cfg);
    cbn [app map fst];
    (split; [repeat (constructor; [cbn; intuition discriminate|]); constructor|]);
    repeat split; cbn; intuition (try discriminate; auto 30).
Qed.

End CallerFacts.

(** A library not yet built, in the scripted world: its build directory
    is deleted after the build. *)
Lemma fresh_build_is_cleaned_witness :
  build_library windows (toy_config true) (toy_env "linux") "zlib" [] (mkSt (base []) [])
  = remove_each windows ["build"] (mkSt (base []) []) /\
  path_exists windows ["build"]
    (world (snd (build_library windows (toy_config true) (toy_env "linux") "zlib" []
                   (mkSt (base []) [])))) = false.
Proof.
  assert (E := @fresh_build_is_cleaned SWorld windows (toy_config true) (toy_env "linux")
                 "zlib" [] (mkSt (base []) []) eq_refl eq_refl).
  split; [exact E|]. rewrite E. vm_compute. reflexivity.
Defined.

(** A whole run in the scripted world, the flag off. *)
Lemma main_without_flag_deletes_nothing_witness :
  trace (snd (main windows (toy_config false) (toy_env "linux") (mkSt (base []) [])))
  = [EvChdir ["/"; "tmp"]] /\
  path_exists windows ["build"]
    (world (snd (main windows (toy_config false) (toy_env "linux") (mkSt (base []) []))))
  = true.
Proof.
  destruct (@main_without_flag_deletes_nothing SWorld windows (toy_config false)
              (toy_env "linux") (mkSt (base []) []) _ _ eq_refl (surjective_pairing _))
    as [H|H].
  - vm_compute in H. discriminate H.
  - split; [exact H|vm_compute; reflexivity].
Defined.

(** A whole run with every library already built. *)
Lemma main_skips_built_libraries_witness :
  let env := Build_BuildEnv "linux" (fun _ (_ : SWorld) => true)
                            (fun name => name)
                            (fun _ _ w => (Raised (PyExc "BuildError" ""), w))
                            (fun _ w => (Ok tt, w)) in
  main windows (toy_config true) env (mkSt (base []) [])
  = (Ok tt, mkSt (mkSWorld (present (base [])) (Some ["/"; "tmp"]) "/tmp" ["a1"; "b2"]
                           true true [] [])
                 [EvChdir ["/"; "tmp"]]).
Proof.
  intros env.
  rewrite (@main_skips_built_libraries SWorld windows (toy_config true) env
             (mkSt (base []) []) eq_refl (fun _ _ => eq_refl)).
  reflexivity.
Defined.

(** The plan on [linux]. *)
Lemma main_builds_each_library_once_witness :
  In "sdbus_cpp" (map fst (build_plan (toy_config true) (toy_env "linux"))) /\
  ~ In "sevenzip" (map fst (build_plan (toy_config true) (toy_env "linux"))).
Proof.
  destruct (@main_builds_each_library_once SWorld windows (toy_config true)
              (toy_env "linux")) as (_ & _ & H7 & _ & Hs & _).
  split.
  - apply Hs. reflexivity.
  - intros H. apply H7 in H. discriminate H.
Defined.

(** * Further properties in the filesystem tree *)

Section TreeMore.

Variable name : string.
Let os : OS FsWorld := tree_os name.

Lemma find_kid_alter_other n m g ks :
  String.eqb n m = false -> find_kid m (alter_kid n g ks) = find_kid m ks.
Proof.
  intros Hnm. induction ks as [|[k c] ks IH]; cbn; [reflexivity|].
  destruct (String.eqb k n) eqn:E.
  - apply String.eqb_eq in E. subst k. rewrite Hnm.
    destruct (g c); cbn; [rewrite Hnm|]; reflexivity.
  - cbn. rewrite IH. reflexivity.
Qed.

(** Rewriting the entry at [p] changes the existence of nothing outside
    [p]. *)
Lemma exists_alter_outside p f :
  forall q t, is_prefix p q = false ->
              is_some (lookup q (alter_at p f t)) = is_some (lookup q t).
Proof.
  induction p as [|n p IH]; intros q t Hq; [discriminate|].
  destruct q as [|m q]; [reflexivity|].
  destruct t as [ro|ks]; [reflexivity|].
  cbn [is_prefix] in Hq. cbn [alter_at lookup].
  destruct (String.eqb n m) eqn:E.
  - apply String.eqb_eq in E. subst m. cbn in Hq.
    destruct p as [|a p]; [discriminate|].
    rewrite find_kid_alter_same. destruct (find_kid n ks) as [c|]; [|reflexivity].
    cbn [option_map]. apply IH. exact Hq.
  - rewrite find_kid_alter_other by exact E. reflexivity.
Qed.

Lemma Path_eqb_refl p : Path_eqb p p = true.
Proof.
  induction p as [|a p IH]; [reflexivity|]. cbn. rewrite String.eqb_refl. exact IH.
Qed.

(** Nothing but the guard moves the process. *)
Lemma preclean_keeps_cwd p s :
  fs_cwd (world (snd (remove_git_dir os p s))) = fs_cwd (world s).
Proof.
  pose proof (remove_git_dir_cases os p s) as C. cbv zeta in C.
  assert (Hg : joinpath p ".git" <> []) by (unfold joinpath; destruct p; discriminate).
  destruct (path_exists os (joinpath p ".git") (world s)) eqn:E; rewrite C; cbn [snd world];
    [|reflexivity].
  change (path_exists os (joinpath p ".git") (world s))
    with (is_some (lookup (joinpath p ".git") (root (world s)))) in E.
  destruct (lookup (joinpath p ".git") (root (world s))) as [[ro|gk]|] eqn:G;
    [| |discriminate].
  - unfold os. rewrite (repair_scan_of_file name _ Hg G). reflexivity.
  - unfold os. rewrite (fs_rmtree_removes name _ Hg G). reflexivity.
Qed.

Lemma trash_path_keeps_cwd s :
  fs_cwd (world (snd (make_trash_path os s))) = fs_cwd (world s).
Proof.
  unfold make_trash_path. unfold_py. cbn [os tree_os gettempdir uuid4_hex Path_of].
  unfold fs_uuid4. cbn [world trace]. destruct (fs_tokens (world s)); reflexivity.
Qed.

Lemma relocate_keeps_cwd p t s :
  fs_cwd (world (snd (relocate os p t s))) = fs_cwd (world s).
Proof.
  rewrite relocate_cases. cbn [os tree_os rename move str_of]. unfold fs_rename, fs_move.
  destruct p as [|a p']; [reflexivity|].
  destruct (lookup (a :: p') (root (world s))); [|reflexivity].
  destruct (negb _ && _); reflexivity.
Qed.

Lemma delete_target_first_attempt_cwd path T retries delay ign s ks :
  (1 <= retries)%Z -> T <> [] ->
  lookup T (root (world s)) = Some (Dir ks) ->
  lookup T (remove_at T (root (world s))) = None ->
  exists s',
    delete_target os path T retries delay ign s = (Ok true, s') /\
    root (world s') = remove_at T (root (world s)) /\
    fs_cwd (world s') = fs_cwd (world s).
Proof.
  intros Hr HT L Gone. unfold delete_target.
  destruct (py_range1_pos Hr) as (rest & ->). cbn [retry_loop].
  assert (E : path_exists os T (world s) = true).
  { cbn [os tree_os path_exists]. rewrite L. reflexivity. }
  unfold bind at 1. unfold bind at 1.
  rewrite (attempt_body_returns os T delay 1 s E (fs_rmtree_removes name _ HT L)).
  cbn [os tree_os path_exists root set_root]. rewrite Gone. cbn.
  eexists. repeat split; reflexivity.
Qed.

(** The removal of a directory, from the state the guard leaves. *)
Lemma tree_removal_after_guard path retries delay ign w ks s1 :
  (1 <= retries)%Z ->
  parse path <> [] ->
  wf (root w) ->
  lookup (parse path) (root w) = Some (Dir ks) ->
  _ensure_not_cwd os (parse path) (mkSt w [EvExists (parse path)]) = (Ok tt, s1) ->
  root (world s1) = root w ->
  exists s,
    run (safe_remove_tree os path retries delay ign) w = (Ok true, s) /\
    root (world s) = remove_at (parse path) (root w) /\
    fs_cwd (world s) = fs_cwd (world s1).
Proof.
  intros Hr Hp Hw L G R1. set (p := parse path) in *.
  assert (E : path_exists os (Path_of os path) w = true).
  { cbn [os tree_os path_exists Path_of]. fold p. rewrite L. reflexivity. }
  unfold run. rewrite safe_remove_tree_phases by exact E.
  change (Path_of os path) with p. cbn [world trace app].
  assert (Hw1 : wf (root (world s1))) by (rewrite R1; exact Hw).
  assert (L1 : lookup p (root (world s1)) = Some (Dir ks)) by (rewrite R1; exact L).
  destruct (preclean_keeps_target name s1 Hp Hw1 L1) as (s2 & Gi & Hw2 & [ks2 L2] & R2).
  destruct (trash_path_keeps_root name s2) as (t & s3 & Tr & Ht & R3).
  assert (Hw3 : wf (root (world s3))) by (rewrite R3; exact Hw2).
  assert (L3 : lookup p (root (world s3)) = Some (Dir ks2)) by (rewrite R3; exact L2).
  destruct (relocate_keeps_tree name s3 Hp Ht Hw3 L3)
    as (moved & s4 & Re & HT & L4 & R4 & Gone).
  rewrite <- R4 in Gone.
  destruct (delete_target_first_attempt_cwd path delay ign s4 Hr HT L4 Gone)
    as (s5 & D & R5 & C5).
  exists s5. split; [|split].
  - unfold choose_target.
    unfold bind at 1. unfold bind at 1. fold os p in G. rewrite G.
    unfold bind at 1. fold os in Gi. rewrite Gi.
    unfold bind at 1. fold os in Tr. rewrite Tr.
    unfold bind at 1. fold os in Re. rewrite Re.
    unfold ret at 1. exact D.
  - rewrite R5. etransitivity; [exact R4|]. rewrite R3, R2, R1. reflexivity.
  - rewrite C5.
    replace s4 with (snd (relocate os p t s3)) by (fold os in Re; rewrite Re; reflexivity).
    rewrite relocate_keeps_cwd.
    replace s3 with (snd (make_trash_path os s2)) by (fold os in Tr; rewrite Tr; reflexivity).
    rewrite trash_path_keeps_cwd.
    replace s2 with (snd (remove_git_dir os p s1)) by (fold os in Gi; rewrite Gi; reflexivity).
    apply preclean_keeps_cwd.
Qed.

End TreeMore.




